(** * drgn.helpers.linux.mm: page descriptors, address translation, flags

    A shallow embedding of the memory-management helpers of
    [drgn/helpers/linux/mm.py].  A [Program] is the debugged kernel: the
    objects that [prog[name]] resolves, the per-program cache dictionary,
    the layout of [struct page] and the target memory.  Helpers that can
    raise return a [result]; the one helper that writes the cache
    ([_page0]) threads the program explicitly. *)

From stdpp Require Import base option list gmap strings.
From Stdlib Require Import ZArith Lia Strings.Byte.

Local Open Scope Z_scope.

(** ** Exceptions and results *)

(** The two exceptions the helpers meet: [KeyError] from [prog[name]] and
    from the cache dictionary, [drgn.FaultError] from a read of target
    memory. *)
Inductive Exception : Type :=
  | KeyError (name : string)
  | FaultError (address : Z).

Inductive result (A : Type) : Type :=
  | Ok (a : A)
  | Raise (e : Exception).

Arguments Ok {A} a.
Arguments Raise {A} e.

#[global] Instance result_ret : MRet result := @Ok.
#[global] Instance result_bind : MBind result := λ A B f r,
  match r with
  | Ok a => f a
  | Raise e => Raise e
  end.

Definition is_KeyError (e : Exception) : bool :=
  match e with KeyError _ => true | FaultError _ => false end.

Definition is_FaultError (e : Exception) : bool :=
  match e with FaultError _ => true | KeyError _ => false end.

(** ** Fixed-width integers

    The module supports AArch64, s390x and x86-64 only: [unsigned long],
    [phys_addr_t] and pointers are 64 bits wide, [unsigned int] 32. *)
Definition to_u64 (z : Z) : Z := z mod 2 ^ 64.
Definition to_u32 (z : Z) : Z := z mod 2 ^ 32.

(** Signed 32-bit integers ([int]). *)
Definition to_s32 (z : Z) : Z := (z + 2 ^ 31) mod 2 ^ 32 - 2 ^ 31.

(** The mask [1 << flag] in [word & (1 << flag)], for an object [flag]
    (an enumerator, never negative).  The literal 1 is a C [int] and so is
    the shifted value, cut to 32 bits: [2 ^ flag] up to bit 30,
    [INT_MIN] for 31, 0 from 32 up.  The [&] with the [unsigned long] word
    converts it to 64 bits, extending the sign. *)
Definition flag_mask (flag : Z) : Z := to_u64 (to_s32 (Z.shiftl 1 flag)).

(** A pointer object holds a 64-bit value. *)
Definition is_pointer (p : Z) : Prop := 0 <= p < 2 ^ 64.

(** Python's [bool(x)] on an integer or integer object. *)
Definition truthy (z : Z) : bool := negb (z =? 0).

(** ** The program *)

(** [contig_page_data], the only structure-valued global the helpers use. *)
Record pglist_data : Type := {
  node_mem_map : Z;
  node_start_pfn : Z
}.

Record Program : Type := {
  (** [prog[name]] for the integer- and pointer-valued names: the
      enumerators of [enum pageflags], [PAGE_SHIFT], [PAGE_SIZE],
      [min_low_pfn], [max_pfn], [vmemmap]. *)
  prog_objects : gmap string Z;
  (** [prog["contig_page_data"]] *)
  prog_contig_page_data : option pglist_data;
  (** [prog.cache] *)
  prog_cache : gmap string Z;
  (** Target memory, one cell per structure member; [None] is a fault. *)
  prog_memory : Z → option Z;
  (** Layout of [struct page] from the debugging information. *)
  sizeof_page : Z;
  offsetof_flags : Z;
  offsetof_compound_head : Z;
  offsetof_compound_order : Z;
  (** [_linux_helper_direct_mapping_offset(prog)] *)
  prog_direct_mapping_offset : result Z
}.

(** [prog[name]] *)
Definition prog_lookup (prog : Program) (name : string) : result Z :=
  match prog_objects prog !! name with
  | Some v => Ok v
  | None => Raise (KeyError name)
  end.

(** Reading an [unsigned long] member stored at [addr]. *)
Definition read_u64 (prog : Program) (addr : Z) : result Z :=
  match prog_memory prog addr with
  | Some v => Ok (to_u64 v)
  | None => Raise (FaultError addr)
  end.

(** Pointer arithmetic on [struct page *]: [page + i], and [page[i]] as the
    descriptor it points to. *)
Definition page_add (prog : Program) (page i : Z) : Z :=
  to_u64 (page + i * sizeof_page prog).

Definition page_sub (prog : Program) (page i : Z) : Z :=
  to_u64 (page - i * sizeof_page prog).

(** [page.flags], [page.compound_head], [page.compound_order] read through
    the pointer [page]. *)
Definition page_flags (prog : Program) (page : Z) : result Z :=
  read_u64 prog (to_u64 (page + offsetof_flags prog)).

Definition page_compound_head (prog : Program) (page : Z) : result Z :=
  read_u64 prog (to_u64 (page + offsetof_compound_head prog)).

Definition page_compound_order (prog : Program) (page : Z) : result Z :=
  read_u64 prog (to_u64 (page + offsetof_compound_order prog)).

(** ** Page flag getters (generated by scripts/generate_page_flag_getters.py)

    Every getter is the same function up to the enumerator name:
<<
    try:
        flag = page.prog_["PG_active"]
    except KeyError:
        return False
    return bool(page.flags & (1 << flag))
>> *)
Definition page_flag_getter (name : string) (prog : Program) (page : Z)
  : result bool :=
  match prog_lookup prog name with
  | Raise (KeyError _) => Ok false
  | Raise e => Raise e
  | Ok flag =>
      flags ← page_flags prog page;
      Ok (truthy (Z.land flags (flag_mask flag)))
  end.

Definition PageLRU := page_flag_getter "PG_lru".


(** ** Compound pages *)

(** [page.flags & (1 << page.prog_["PG_head"])]: the enumerator is looked
    up while the right operand is built, before the flags word is read. *)
Definition page_head_flag (prog : Program) (page : Z) : result Z :=
  PG_head ← prog_lookup prog "PG_head";
  flags ← page_flags prog page;
  Ok (Z.land flags (flag_mask PG_head)).

Definition PageCompound (prog : Program) (page : Z) : result bool :=
  flag ← page_head_flag prog page;
  if truthy flag then Ok true
  else
    head ← page_compound_head prog page;
    Ok (truthy (Z.land head 1)).

Definition _page_is_fake_head (prog : Program) (page : Z) : result bool :=
  head ← page_compound_head prog (page_add prog page 1);
  Ok (truthy (Z.land head 1) && negb (head - 1 =? page)).

Definition PageHead (prog : Program) (page : Z) : result bool :=
  flag ← page_head_flag prog page;
  if truthy flag then
    fake ← _page_is_fake_head prog page;
    Ok (negb fake)
  else Ok false.

Definition PageTail (prog : Program) (page : Z) : result bool :=
  head ← page_compound_head prog page;
  if truthy (Z.land head 1) then Ok true
  else
    flag ← page_head_flag prog page;
    if truthy flag then _page_is_fake_head prog page
    else Ok false.

Definition compound_head (prog : Program) (page : Z) : result Z :=
  head ← page_compound_head prog page;
  if truthy (Z.land head 1) then Ok (to_u64 (head - 1))
  else
    flag ← page_head_flag prog page;
    if truthy flag then
      head ← page_compound_head prog (page_add prog page 1);
      if truthy (Z.land head 1) then Ok (to_u64 (head - 1))
      else Ok page
    else Ok page.

Definition compound_order (prog : Program) (page : Z) : result Z :=
  is_head ← PageHead prog page;
  if negb is_head then Ok 0
  else
    order ← page_compound_order prog (page_add prog page 1);
    Ok (to_u32 order).

Definition compound_nr (prog : Program) (page : Z) : result Z :=
  is_head ← PageHead prog page;
  if negb is_head then Ok 1
  else
    order ← page_compound_order prog (page_add prog page 1);
    Ok (to_u64 (Z.shiftl 1 order)).

Definition page_size (prog : Program) (page : Z) : result Z :=
  PAGE_SIZE ← prog_lookup prog "PAGE_SIZE";
  order ← compound_order prog page;
  Ok (to_u64 (Z.shiftl PAGE_SIZE order)).

(** ** The page array *)

Definition set_cache (prog : Program) (key : string) (value : Z) : Program :=
  {| prog_objects := prog_objects prog;
     prog_contig_page_data := prog_contig_page_data prog;
     prog_cache := <[key := value]> (prog_cache prog);
     prog_memory := prog_memory prog;
     sizeof_page := sizeof_page prog;
     offsetof_flags := offsetof_flags prog;
     offsetof_compound_head := offsetof_compound_head prog;
     offsetof_compound_order := offsetof_compound_order prog;
     prog_direct_mapping_offset := prog_direct_mapping_offset prog |}.

(** [prog["contig_page_data"]] *)
Definition prog_lookup_contig_page_data (prog : Program) : result pglist_data :=
  match prog_contig_page_data prog with
  | Some data => Ok data
  | None => Raise (KeyError "contig_page_data")
  end.

(** The [struct page *] for PFN 0.  Returns the value (or the exception
    that escapes) and the program with its cache as the call leaves it. *)
Definition _page0 (prog : Program) : result Z * Program :=
  match prog_cache prog !! "page0" with
  | Some page0 => (Ok page0, prog)
  | None =>
      let found :=
        match prog_lookup prog "vmemmap" with
        | Ok vmemmap => Ok vmemmap
        | Raise (KeyError _) =>
            contig_page_data ← prog_lookup_contig_page_data prog;
            Ok (page_sub prog (node_mem_map contig_page_data)
                              (node_start_pfn contig_page_data))
        | Raise e => Raise e
        end in
      match found with
      | Ok page0 => (Ok page0, set_cache prog "page0" page0)
      | Raise e => (Raise e, prog)
      end
  end.

(** [for_each_page] is a generator.  Its frame is either not yet entered,
    suspended at the [yield] with the range iterator at [next_pfn], or
    finished (by falling off the loop or by an exception). *)
Inductive for_each_page_frame : Type :=
  | Created
  | Suspended (page0 next_pfn stop : Z)
  | Finished.

(** One turn of [for i in range(...): yield page0 + i]; [Ok None] is
    StopIteration. *)
Definition for_each_page_resume (prog : Program) (page0 next_pfn stop : Z)
  : result (option Z) * for_each_page_frame :=
  if next_pfn <? stop
  then (Ok (Some (page_add prog page0 next_pfn)),
        Suspended page0 (next_pfn + 1) stop)
  else (Ok None, Finished).

(** [next(gen)] *)
Definition for_each_page_next (frame : for_each_page_frame) (prog : Program)
  : result (option Z) * for_each_page_frame * Program :=
  match frame with
  | Created =>
      match _page0 prog with
      | (Raise e, prog') => (Raise e, Finished, prog')
      | (Ok page0, prog') =>
          match prog_lookup prog' "min_low_pfn" with
          | Raise e => (Raise e, Finished, prog')
          | Ok min_low_pfn =>
              match prog_lookup prog' "max_pfn" with
              | Raise e => (Raise e, Finished, prog')
              | Ok max_pfn =>
                  (for_each_page_resume prog' page0 min_low_pfn max_pfn, prog')
              end
          end
      end
  | Suspended page0 next_pfn stop =>
      (for_each_page_resume prog page0 next_pfn stop, prog)
  | Finished => (Ok None, Finished, prog)
  end.

(** The loop of the docstring of [for_each_page], for any loop body:
<<
    for page in for_each_page(prog):
        try:
            body(page)
        except drgn.FaultError:
            continue
>>
    It returns the pages whose body completed, with what the body
    returned, in the order visited.  [None] means [fuel] turns were not
    enough. *)
Fixpoint for_each_page_try {A : Type} (body : Program → Z → result A)
    (fuel : nat) (frame : for_each_page_frame) (prog : Program)
  : option (result (list (Z * A)) * Program) :=
  match fuel with
  | O => None
  | S fuel' =>
      match for_each_page_next frame prog with
      | (Raise e, _, prog') => Some (Raise e, prog')
      | (Ok None, _, prog') => Some (Ok [], prog')
      | (Ok (Some page), frame', prog') =>
          match body prog' page with
          | Raise (FaultError _) => for_each_page_try body fuel' frame' prog'
          | Raise e => Some (Raise e, prog')
          | Ok a =>
              match for_each_page_try body fuel' frame' prog' with
              | Some (Ok done, prog'') => Some (Ok ((page, a) :: done), prog'')
              | other => other
              end
          end
      end
  end.

(** [list(for_each_page(prog))] *)
Definition for_each_page_list (fuel : nat) (prog : Program)
  : option (result (list Z) * Program) :=
  match for_each_page_try (λ _ _, Ok tt) fuel Created prog with
  | Some (Ok pages, prog') => Some (Ok (fst <$> pages), prog')
  | Some (Raise e, prog') => Some (Raise e, prog')
  | None => None
  end.

(** ** Address translation *)

Definition PFN_PHYS (prog : Program) (pfn : Z) : result Z :=
  let pfn := to_u64 pfn in
  PAGE_SHIFT ← prog_lookup prog "PAGE_SHIFT";
  Ok (to_u64 (Z.shiftl pfn PAGE_SHIFT)).

Definition PHYS_PFN (prog : Program) (addr : Z) : result Z :=
  let addr := to_u64 addr in
  PAGE_SHIFT ← prog_lookup prog "PAGE_SHIFT";
  Ok (Z.shiftr addr PAGE_SHIFT).

Definition pfn_to_page (prog : Program) (pfn : Z) : result Z * Program :=
  match _page0 prog with
  | (Ok page0, prog') => (Ok (page_add prog' page0 pfn), prog')
  | (Raise e, prog') => (Raise e, prog')
  end.

Definition phys_to_virt (prog : Program) (addr : Z) : result Z :=
  offset ← prog_direct_mapping_offset prog;
  Ok (to_u64 (addr + offset)).

Definition virt_to_phys (prog : Program) (addr : Z) : result Z :=
  offset ← prog_direct_mapping_offset prog;
  Ok (to_u64 (addr - offset)).

Definition pfn_to_virt (prog : Program) (pfn : Z) : result Z :=
  PFN_PHYS prog pfn ≫= phys_to_virt prog.

Definition virt_to_pfn (prog : Program) (addr : Z) : result Z :=
  virt_to_phys prog addr ≫= PHYS_PFN prog.

(** Signed 64-bit integers ([ptrdiff_t], [long]). *)
Definition to_s64 (z : Z) : Z := (z + 2 ^ 63) mod 2 ^ 64 - 2 ^ 63.

(** Pointer difference on [struct page *], [p - q]: the number of
    descriptors between the two addresses, rounded toward zero, as a
    [ptrdiff_t].  [struct page] is a complete type of nonzero size. *)
Definition page_diff (prog : Program) (p q : Z) : Z :=
  to_s64 ((p - q) ÷ sizeof_page prog).

Definition page_to_pfn (prog : Program) (page : Z) : result Z * Program :=
  match _page0 prog with
  | (Ok page0, prog') => (Ok (to_u64 (page_diff prog' page page0)), prog')
  | (Raise e, prog') => (Raise e, prog')
  end.

Definition page_to_phys (prog : Program) (page : Z) : result Z * Program :=
  match page_to_pfn prog page with
  | (Ok pfn, prog') => (PFN_PHYS prog' pfn, prog')
  | (Raise e, prog') => (Raise e, prog')
  end.

Definition page_to_virt (prog : Program) (page : Z) : result Z * Program :=
  match page_to_pfn prog page with
  | (Ok pfn, prog') => (pfn_to_virt prog' pfn, prog')
  | (Raise e, prog') => (Raise e, prog')
  end.

Definition phys_to_page (prog : Program) (addr : Z) : result Z * Program :=
  match PHYS_PFN prog addr with
  | Ok pfn => pfn_to_page prog pfn
  | Raise e => (Raise e, prog)
  end.

Definition virt_to_page (prog : Program) (addr : Z) : result Z * Program :=
  match virt_to_pfn prog addr with
  | Ok pfn => pfn_to_page prog pfn
  | Raise e => (Raise e, prog)
  end.

(** ** Decoding the flags

    [decode_enum_type_flags(value, type)] belongs to
    [drgn.helpers.common.format]; it is an argument here, already applied
    to the type of [__NR_PAGEFLAGS]. *)
Definition decode_page_flags (decode_enum_type_flags : Z → string)
    (prog : Program) (page : Z) : result string :=
  NR_PAGEFLAGS ← prog_lookup prog "__NR_PAGEFLAGS";
  let PAGEFLAGS_MASK := Z.shiftl 1 NR_PAGEFLAGS - 1 in
  flags ← page_flags prog page;
  Ok (decode_enum_type_flags (Z.land flags PAGEFLAGS_MASK)).

(** ** Command line and environment of a task

    [_linux_helper_read_vm(prog, pgd, address, size)] walks the page
    tables of an address space; it is the argument [read_vm].  An
    [mm_struct] is given by the members the helpers read. *)
Record mm_struct : Type := {
  pgd : Z;
  arg_start : Z;
  arg_end : Z;
  env_start : Z;
  env_end : Z
}.

Record task_struct : Type := {
  mm : mm_struct
}.

Definition access_process_vm (read_vm : Z → Z → Z → result (list byte))
    (task : task_struct) (address size : Z) : result (list byte) :=
  read_vm (pgd (mm task)) address size.

Definition access_remote_vm (read_vm : Z → Z → Z → result (list byte))
    (mm : mm_struct) (address size : Z) : result (list byte) :=
  read_vm (pgd mm) address size.

(** [data.split(sep)] for a separator of one byte. *)
Fixpoint bytes_split (sep : byte) (data : list byte) : list (list byte) :=
  match data with
  | [] => [[]]
  | b :: rest =>
      if Byte.eqb b sep then [] :: bytes_split sep rest
      else
        match bytes_split sep rest with
        | piece :: pieces => (b :: piece) :: pieces
        | [] => [[b]]
        end
  end.

(** [pieces[:-1]] is [removelast pieces]. *)
Definition cmdline (read_vm : Z → Z → Z → result (list byte))
    (task : task_struct) : result (list (list byte)) :=
  let mm := mm task in
  data ← access_remote_vm read_vm mm (arg_start mm) (arg_end mm - arg_start mm);
  Ok (removelast (bytes_split x00 data)).

Definition environ (read_vm : Z → Z → Z → result (list byte))
    (task : task_struct) : result (list (list byte)) :=
  let mm := mm task in
  data ← access_remote_vm read_vm mm (env_start mm) (env_end mm - env_start mm);
  Ok (removelast (bytes_split x00 data)).

(** ** Vocabulary of the statements *)


(** The three classifications of a descriptor from the two predicates:
    standalone (neither), head, tail. *)
Definition classifications (is_head is_tail : bool) : list bool :=
  [negb is_head && negb is_tail; is_head; is_tail].

(** What the caller's loop keeps of a page: the result of the body, unless
    the body raised. *)
Definition completed {A : Type} (body : Program → Z → result A)
    (prog : Program) (page : Z) : option (Z * A) :=
  match body prog page with
  | Ok a => Some (page, a)
  | Raise _ => None
  end.

(** The strings of [args], each followed by [sep]. *)
Definition terminated (sep : byte) (args : list (list byte)) : list byte :=
  concat ((λ arg, arg ++ [sep]) <$> args).

(** ** Example targets

    A small x86-64-like target used to evaluate the helpers: 64-byte
    [struct page] with [flags] at 0, [compound_head] at 8 and
    [compound_order] at 17, [PG_head] = 16, 4096-byte pages, and the page
    array at [0x1000]. *)
Definition memory_of (cells : list (Z * Z)) : Z → option Z :=
  λ addr, (list_to_map cells : gmap Z Z) !! addr.

Definition target (objects : list (string * Z)) (cells : list (Z * Z))
  : Program :=
  {| prog_objects := list_to_map objects;
     prog_contig_page_data := None;
     prog_cache := ∅;
     prog_memory := memory_of cells;
     sizeof_page := 64;
     offsetof_flags := 0;
     offsetof_compound_head := 8;
     offsetof_compound_order := 17;
     prog_direct_mapping_offset := Ok 0xffff888000000000 |}.

Definition x86_objects : list (string * Z) :=
  [ ("PG_lru", 5); ("PG_head", 16); ("PAGE_SHIFT", 12); ("PAGE_SIZE", 4096);
    ("vmemmap", 0x1000); ("min_low_pfn", 0); ("max_pfn", 10) ].

(** A two-page compound at [0x1000]: the head carries [PG_head], the tail
    at [0x1040] points back at it. *)
Definition two_page_compound : Program :=
  target x86_objects
    [ (0x1000, 2 ^ 16); (0x1008, 0); (0x1040, 0); (0x1048, 0x1001) ].

(** A descriptor whose own [compound_head] word is tagged and which also
    carries [PG_head], followed by a descriptor with an untagged word. *)
Definition tagged_and_flagged : Program :=
  target x86_objects [ (0x1000, 2 ^ 16); (0x1008, 0x2001); (0x1048, 0) ].


(** A chain of tagged words: [0x1000] points at [0x1040], which points at
    [0x1080]. *)
Definition tail_of_tail : Program :=
  target x86_objects [ (0x1008, 0x1041); (0x1048, 0x1081); (0x1088, 0) ].

(** A tail page on a target whose debugging information has no
    [PG_head]. *)
Definition tail_without_PG_head : Program :=
  target [("PG_lru", 5)] [ (0x1040, 0); (0x1048, 0x1001) ].

(** An order-3 compound page at [0x1000]. *)
Definition order3_compound : Program :=
  target x86_objects
    [ (0x1000, 2 ^ 16); (0x1008, 0); (0x1040, 0); (0x1048, 0x1001);
      (0x1051, 3) ].

(** A target with neither [vmemmap] nor [contig_page_data]. *)
Definition sparsemem : Program :=
  target [("PG_head", 16); ("min_low_pfn", 0); ("max_pfn", 10)] [].

(** A flat-memory target: no [vmemmap], [mem_map] at [0x5000] for the
    node that starts at PFN 0x10. *)
Definition flatmem : Program :=
  {| prog_objects := delete "vmemmap" (list_to_map x86_objects);
     prog_contig_page_data :=
       Some {| node_mem_map := 0x5000; node_start_pfn := 0x10 |};
     prog_cache := ∅;
     prog_memory := λ _, None;
     sizeof_page := 64;
     offsetof_flags := 0;
     offsetof_compound_head := 8;
     offsetof_compound_order := 17;
     prog_direct_mapping_offset := Ok 0 |}.

(** Ten PFNs, with the descriptor of PFN 5 (at [0x1140]) in a hole of the
    target's memory; the pages with an even PFN are on the LRU. *)
Definition offline_pfn5 : Program :=
  target x86_objects
    [ (0x1000, 32); (0x1040, 0); (0x1080, 32); (0x10c0, 0); (0x1100, 32);
      (0x1180, 32); (0x11c0, 0); (0x1200, 32); (0x1240, 0) ].

(** The last page of a page array: the descriptor after it is not
    mapped. *)
Definition last_page : Program :=
  target x86_objects [ (0x1000, 32); (0x1008, 0x2000) ].

(** Two pages of a target whose debugging information has no
    [PG_head]. *)
Definition two_pages_without_PG_head : Program :=
  target [("vmemmap", 0x1000); ("min_low_pfn", 0); ("max_pfn", 2)]
    [ (0x1008, 0); (0x1048, 0) ].

(** A page with [PG_lru] and, above the 24 page flags, zone bits. *)
Definition page_with_zone_bits : Program :=
  target [("__NR_PAGEFLAGS", 24)] [ (0x1000, 32 + 2 ^ 62) ].

(** A task started as [vim mm], whose environment area was cut in the
    middle of its second variable: ["A=1\0B="]. *)
Definition vim_task : task_struct :=
  {| mm := {| pgd := 0x2000; arg_start := 0x7000; arg_end := 0x7007;
              env_start := 0x7010; env_end := 0x7016 |} |}.

Definition vim_read_vm (pgd address size : Z) : result (list byte) :=
  if (pgd =? 0x2000) && (address =? 0x7000) && (size =? 7)
  then Ok [x76; x69; x6d; x00; x6d; x6d; x00]
  else if (pgd =? 0x2000) && (address =? 0x7010) && (size =? 6)
  then Ok [x41; x3d; x31; x00; x42; x3d]
  else Raise (FaultError address).

(** ** Bits *)

Lemma truthy_low_bit (z : Z) : truthy (Z.land z 1) = Z.odd z.
Proof.
  unfold truthy. change 1 with (Z.ones 1). rewrite Z.land_ones by lia.
  change (2 ^ 1) with 2. rewrite Zmod_odd. by destruct (Z.odd z).
Qed.

Lemma land_pow2 (z n : Z) :
  0 <= n → Z.land z (2 ^ n) = if Z.testbit z n then 2 ^ n else 0.
Proof.
  intros Hn. apply Z.bits_inj'. intros k Hk. rewrite Z.land_spec.
  rewrite Z.pow2_bits_eqb by lia.
  destruct (Z.eqb_spec n k) as [->|Hne].
  - destruct (Z.testbit z k); simpl.
    + rewrite Z.pow2_bits_true; lia.
    + by rewrite Z.bits_0.
  - rewrite andb_false_r. destruct (Z.testbit z n).
    + rewrite Z.pow2_bits_false; lia.
    + by rewrite Z.bits_0.
Qed.

Lemma flag_mask_small (bit : Z) : 0 <= bit < 31 → flag_mask bit = 2 ^ bit.
Proof.
  intros Hbit. unfold flag_mask, to_s32, to_u64. rewrite Z.shiftl_1_l.
  assert (0 < 2 ^ bit) by (apply Z.pow_pos_nonneg; lia).
  assert (2 ^ bit < 2 ^ 31) by (apply Z.pow_lt_mono_r; lia).
  rewrite (Z.mod_small (2 ^ bit + 2 ^ 31)) by lia.
  rewrite Z.mod_small by lia. lia.
Qed.

Lemma truthy_flag (flags bit : Z) :
  0 <= bit < 31 →
  truthy (Z.land flags (flag_mask bit)) = Z.testbit flags bit.
Proof.
  intros Hbit. unfold truthy. rewrite flag_mask_small by done.
  rewrite land_pow2 by lia. destruct (Z.testbit flags bit); [|done].
  assert (0 < 2 ^ bit) by (apply Z.pow_pos_nonneg; lia).
  destruct (Z.eqb_spec (2 ^ bit) 0); [lia | done].
Qed.

Lemma to_u64_range (z : Z) : is_pointer (to_u64 z).
Proof. unfold is_pointer, to_u64. apply Z.mod_pos_bound. lia. Qed.

Lemma to_u64_small (z : Z) : is_pointer z → to_u64 z = z.
Proof. unfold is_pointer, to_u64. intros H. by apply Z.mod_small. Qed.

Lemma read_u64_range (prog : Program) (addr v : Z) :
  read_u64 prog addr = Ok v → is_pointer v.
Proof.
  unfold read_u64. destruct (prog_memory prog addr); [|done].
  intros [= <-]. apply to_u64_range.
Qed.

(** A tagged word is at least 1, so taking the tag off never wraps. *)
Lemma untag_small (head : Z) :
  is_pointer head → Z.odd head = true → to_u64 (head - 1) = head - 1.
Proof.
  intros Hr Hodd. apply to_u64_small. unfold is_pointer in *.
  assert (head ≠ 0) by (intros ->; done). lia.
Qed.

(** ** Page flag getters *)

Lemma page_flag_getter_eq (name : string) (prog : Program) (page : Z) :
  page_flag_getter name prog page =
    match prog_objects prog !! name with
    | None => Ok false
    | Some bit =>
        match prog_memory prog (to_u64 (page + offsetof_flags prog)) with
        | None => Raise (FaultError (to_u64 (page + offsetof_flags prog)))
        | Some word => Ok (truthy (Z.land (to_u64 word) (flag_mask bit)))
        end
    end.
Proof.
  unfold page_flag_getter, prog_lookup, page_flags, read_u64.
  destruct (prog_objects prog !! name) as [bit|]; [|done].
  by destruct (prog_memory prog _) as [word|].
Qed.




(** ** Compound pages *)

Lemma page_head_flag_truthy (prog : Program) (page PG_head flags : Z) :
  prog_lookup prog "PG_head" = Ok PG_head →
  0 <= PG_head < 31 →
  page_flags prog page = Ok flags →
  ∃ flag, page_head_flag prog page = Ok flag
          ∧ truthy flag = Z.testbit flags PG_head.
Proof.
  intros Hl Hrange Hf. unfold page_head_flag. rewrite Hl, Hf. simpl.
  eexists; split; [done | by apply truthy_flag].
Qed.

Lemma page_compound_head_range (prog : Program) (page head : Z) :
  page_compound_head prog page = Ok head → is_pointer head.
Proof. apply read_u64_range. Qed.

Lemma page_add_1 (prog : Program) (page : Z) :
  page_add prog page 1 = to_u64 (page + sizeof_page prog).
Proof. unfold page_add. by rewrite Z.mul_1_l. Qed.



Lemma PageHead_and_PageTail_both_true :
  PageHead tagged_and_flagged 0x1000 = Ok true
  ∧ PageTail tagged_and_flagged 0x1000 = Ok true.
Proof. split; reflexivity. Qed.

(** C1 (amended): [PageHead] and [PageTail] are both true exactly for a
    descriptor whose own [compound_head] word is tagged while the
    descriptor also carries [PG_head] and is not a fake head.  For every
    other descriptor (own word untagged, or [PG_head] clear, or fake head)
    they are never both true, and exactly one of standalone, head, tail
    holds. *)
Theorem PageHead_PageTail_exclusive (prog : Program) (page head flag : Z)
    (is_head is_tail : bool) :
  page_compound_head prog page = Ok head →
  page_head_flag prog page = Ok flag →
  PageHead prog page = Ok is_head →
  PageTail prog page = Ok is_tail →
  (is_head && is_tail = true
   ↔ Z.odd head = true ∧ truthy flag = true
     ∧ _page_is_fake_head prog page = Ok false)
  ∧ (Z.odd head = false ∨ truthy flag = false
     ∨ _page_is_fake_head prog page = Ok true →
     is_head && is_tail = false
     ∧ length (filter (λ b, b = true) (classifications is_head is_tail))
       = 1%nat).
Proof.
  intros Hown Hflag Hh Ht.
  assert (is_head && is_tail = true
          ↔ Z.odd head = true ∧ truthy flag = true
            ∧ _page_is_fake_head prog page = Ok false) as Hboth.
  { revert Hh Ht. unfold PageHead, PageTail. rewrite Hown, Hflag. simpl.
    rewrite truthy_low_bit.
    destruct (Z.odd head), (truthy flag); simpl;
      try destruct (_page_is_fake_head prog page) as [[|]|e]; simpl;
      try done;
      intros [= <-] [= <-]; simpl;
      (split; [intros; repeat split; congruence
              | intros (? & ? & ?); congruence]). }
  split; [done|]. intros Hcase.
  assert (is_head && is_tail = false) as Hex.
  { destruct is_head, is_tail; try done. exfalso.
    destruct (proj1 Hboth eq_refl) as (? & ? & ?).
    destruct Hcase as [?|[?|?]]; congruence. }
  split; [done|]. by destruct is_head, is_tail.
Qed.

Lemma PageHead_PageTail_exclusive_witness :
  page_compound_head two_page_compound 0x1040 = Ok 0x1001
  ∧ page_head_flag two_page_compound 0x1040 = Ok 0
  ∧ PageHead two_page_compound 0x1040 = Ok false
  ∧ PageTail two_page_compound 0x1040 = Ok true
  ∧ false && true = false.
Proof.
  do 4 (split; [reflexivity|]).
  exact (proj1 (proj2 (PageHead_PageTail_exclusive two_page_compound 0x1040
                         0x1001 0 false true eq_refl eq_refl eq_refl eq_refl)
                  (or_intror (or_introl eq_refl)))).
Defined.

(** ** Fake heads *)

Lemma _page_is_fake_head_eq (prog : Program) (page : Z) :
  _page_is_fake_head prog page =
    let cell :=
      to_u64 (page_add prog page 1 + offsetof_compound_head prog) in
    match prog_memory prog cell with
    | None => Raise (FaultError cell)
    | Some word =>
        Ok (Z.odd (to_u64 word) && negb (to_u64 word - 1 =? page))
    end.
Proof.
  unfold _page_is_fake_head, page_compound_head, read_u64. simpl.
  destruct (prog_memory prog _) as [word|]; [|done].
  simpl. by rewrite truthy_low_bit.
Qed.

Lemma lor_1_even (z : Z) : Z.even z = true → Z.lor z 1 = z + 1.
Proof.
  intros Heven.
  assert (Z.land z 1 = 0) as Hland.
  { change 1 with (Z.ones 1). rewrite Z.land_ones by lia.
    change (2 ^ 1) with 2. by rewrite Zmod_even, Heven. }
  by rewrite Z.add_nocarry_lxor, Z.lxor_lor.
Qed.

Lemma PageHead_not_fake (prog : Program) (page flag : Z) :
  _page_is_fake_head prog page = Ok false →
  page_head_flag prog page = Ok flag →
  PageHead prog page = Ok (truthy flag).
Proof.
  intros Hfake Hflag. unfold PageHead. rewrite Hflag. simpl. rewrite Hfake.
  by destruct (truthy flag).
Qed.

(** C2: [_page_is_fake_head] reads one cell of target memory, the
    [compound_head] word of the next descriptor (at
    [page + sizeof(struct page) + offsetof(compound_head)]), and is true
    iff that word is tagged and the word minus 1 differs from the page's
    address.  So when that word is the address of the page or-ed with 1,
    the page being at an even address as descriptors are (or, at any
    address, when the word is the address plus 1), the page is not a fake
    head and [PageHead] is decided by the page's own [PG_head] flag
    alone: it is the truth value of [flags & (1 << PG_head)], the bit
    [PG_head] of the flags word for [0 <= PG_head < 31]. *)
Theorem page_is_fake_head_spec (prog : Program) (page : Z) :
  let cell :=
    to_u64 (to_u64 (page + sizeof_page prog) + offsetof_compound_head prog) in
  _page_is_fake_head prog page =
    match prog_memory prog cell with
    | None => Raise (FaultError cell)
    | Some word =>
        Ok (Z.odd (to_u64 word) && negb (to_u64 word - 1 =? page))
    end
  ∧ (∀ prog' : Program,
       sizeof_page prog' = sizeof_page prog →
       offsetof_compound_head prog' = offsetof_compound_head prog →
       prog_memory prog' cell = prog_memory prog cell →
       _page_is_fake_head prog' page = _page_is_fake_head prog page)
  ∧ (∀ next : Z,
       read_u64 prog cell = Ok next →
       (Z.even page = true ∧ next = Z.lor page 1) ∨ next = page + 1 →
       _page_is_fake_head prog page = Ok false
       ∧ (∀ flag : Z,
            page_head_flag prog page = Ok flag →
            PageHead prog page = Ok (truthy flag))
       ∧ ∀ PG_head flags : Z,
           prog_lookup prog "PG_head" = Ok PG_head →
           0 <= PG_head < 31 →
           page_flags prog page = Ok flags →
           PageHead prog page = Ok (Z.testbit flags PG_head)).
Proof.
  intros cell.
  assert (cell = to_u64 (page_add prog page 1 + offsetof_compound_head prog))
    as Hcell by (unfold cell; by rewrite page_add_1).
  split; [rewrite Hcell; apply _page_is_fake_head_eq|]. split.
  - intros prog' Hsize Hoff Hmem. rewrite !_page_is_fake_head_eq. simpl.
    rewrite !page_add_1, Hsize, Hoff. fold cell. by rewrite Hmem.
  - intros next Hnext Hword. rewrite Hcell in Hnext.
    fold (page_compound_head prog (page_add prog page 1)) in Hnext.
    assert (next = page + 1) as ->.
    { destruct Hword as [[Heven ->]| ->]; [by apply lor_1_even | done]. }
    assert (_page_is_fake_head prog page = Ok false) as Hfake.
    { unfold _page_is_fake_head. rewrite Hnext. simpl.
      replace (page + 1 - 1) with page by lia.
      by rewrite Z.eqb_refl, andb_false_r. }
    split; [done|]. split.
    + intros flag. by apply PageHead_not_fake.
    + intros PG_head flags Hl Hrange Hf.
      destruct (page_head_flag_truthy _ _ _ _ Hl Hrange Hf)
        as (flag & Hflag & <-).
      by apply PageHead_not_fake.
Qed.

Lemma page_is_fake_head_spec_witness :
  read_u64 two_page_compound (to_u64 (to_u64 (0x1000 + 64) + 8)) = Ok 0x1001
  ∧ Z.even 0x1000 = true
  ∧ 0x1001 = Z.lor 0x1000 1
  ∧ _page_is_fake_head two_page_compound 0x1000 = Ok false
  ∧ PageHead two_page_compound 0x1000 = Ok (Z.testbit (2 ^ 16) 16).
Proof.
  do 3 (split; [reflexivity|]).
  destruct (page_is_fake_head_spec two_page_compound 0x1000)
    as (_ & _ & Hgenuine).
  destruct (Hgenuine 0x1001 eq_refl (or_introl (conj eq_refl eq_refl)))
    as (Hfake & _ & Hhead).
  split; [exact Hfake|].
  exact (Hhead 16 (2 ^ 16) eq_refl ltac:(lia) eq_refl).
Defined.

(** ** Idempotence of [compound_head] *)

Lemma compound_head_not_idempotent :
  compound_head tail_of_tail 0x1000 = Ok 0x1040
  ∧ compound_head tail_of_tail 0x1040 = Ok 0x1080.
Proof. split; reflexivity. Qed.

Lemma compound_head_pointer (prog : Program) (page head : Z) :
  is_pointer page → compound_head prog page = Ok head → is_pointer head.
Proof.
  intros Hp. unfold compound_head.
  destruct (page_compound_head prog page) as [own|e]; simpl; [|done].
  destruct (truthy (Z.land own 1)); [intros [= <-]; apply to_u64_range|].
  destruct (page_head_flag prog page) as [flag|e]; simpl; [|done].
  destruct (truthy flag); [|by intros [= <-]].
  destruct (page_compound_head prog (page_add prog page 1)) as [next|e];
    simpl; [|done].
  destruct (truthy (Z.land next 1)); intros [= <-];
    [apply to_u64_range | done].
Qed.

Lemma compound_head_fixed (prog : Program) (head : Z) :
  is_pointer head →
  PageTail prog head = Ok false →
  compound_head prog head = Ok head.
Proof.
  intros Hp. unfold PageTail, compound_head.
  destruct (page_compound_head prog head) as [own|e]; simpl; [|done].
  destruct (truthy (Z.land own 1)); [done|].
  destruct (page_head_flag prog head) as [flag|e]; simpl; [|done].
  destruct (truthy flag); [|done].
  unfold _page_is_fake_head.
  destruct (page_compound_head prog (page_add prog head 1)) as [next|e];
    simpl; [|done].
  destruct (truthy (Z.land next 1)); simpl; [|done].
  destruct (Z.eqb_spec (next - 1) head) as [->|]; [|done].
  intros _. by rewrite to_u64_small.
Qed.

(** C4 (amended): [compound_head (compound_head page)] is
    [compound_head page] whenever the page that the first call returns is
    not itself a tail page. *)
Theorem compound_head_idempotent (prog : Program) (page head : Z) :
  is_pointer page →
  compound_head prog page = Ok head →
  PageTail prog head = Ok false →
  compound_head prog head = Ok head.
Proof.
  intros Hp Hhead Htail.
  apply compound_head_fixed; [|done]. by eapply compound_head_pointer.
Qed.

Lemma compound_head_idempotent_witness :
  is_pointer 0x1040
  ∧ compound_head two_page_compound 0x1040 = Ok 0x1000
  ∧ PageTail two_page_compound 0x1000 = Ok false
  ∧ compound_head two_page_compound 0x1000 = Ok 0x1000.
Proof.
  assert (is_pointer 0x1040) as Hp by (unfold is_pointer; lia).
  split; [exact Hp|]. do 2 (split; [reflexivity|]).
  exact (compound_head_idempotent two_page_compound 0x1040 0x1000 Hp
           eq_refl eq_refl).
Defined.

(** ** A target without [PG_head] *)

Lemma PageTail_compound_head_without_PG_head :
  prog_objects tail_without_PG_head !! "PG_head" = None
  ∧ PageTail tail_without_PG_head 0x1040 = Ok true
  ∧ compound_head tail_without_PG_head 0x1040 = Ok 0x1000.
Proof. split; [|split]; reflexivity. Qed.

(** C10 (amended): when [PG_head] is absent from the program,
    [PageCompound] and [PageHead] raise [KeyError]; [PageTail] and
    [compound_head] first read the page's own [compound_head] word and
    raise [KeyError] only if that word is untagged: on a tagged word
    [PageTail] returns [True] and [compound_head] the word minus 1, and a
    fault of that read is raised instead.  The generated getter pattern
    returns [False] for the same absent name. *)
Theorem PG_head_absent (prog : Program) (page : Z) :
  prog_objects prog !! "PG_head" = None →
  PageCompound prog page = Raise (KeyError "PG_head")
  ∧ PageHead prog page = Raise (KeyError "PG_head")
  ∧ PageTail prog page =
      match page_compound_head prog page with
      | Ok head => if Z.odd head then Ok true else Raise (KeyError "PG_head")
      | Raise e => Raise e
      end
  ∧ compound_head prog page =
      match page_compound_head prog page with
      | Ok head =>
          if Z.odd head then Ok (head - 1) else Raise (KeyError "PG_head")
      | Raise e => Raise e
      end
  ∧ page_flag_getter "PG_head" prog page = Ok false.
Proof.
  intros Habsent.
  assert (page_head_flag prog page = Raise (KeyError "PG_head")) as Hflag.
  { unfold page_head_flag, prog_lookup. by rewrite Habsent. }
  repeat apply conj.
  - unfold PageCompound. by rewrite Hflag.
  - unfold PageHead. by rewrite Hflag.
  - unfold PageTail.
    destruct (page_compound_head prog page) as [head|e]; simpl; [|done].
    rewrite truthy_low_bit. destruct (Z.odd head); [done|]. by rewrite Hflag.
  - unfold compound_head.
    destruct (page_compound_head prog page) as [head|e] eqn:Hown; simpl;
      [|done].
    rewrite truthy_low_bit. destruct (Z.odd head) eqn:Hodd.
    + by rewrite untag_small by eauto using page_compound_head_range.
    + by rewrite Hflag.
  - by rewrite page_flag_getter_eq, Habsent.
Qed.

Lemma PG_head_absent_witness :
  prog_objects tail_without_PG_head !! "PG_head" = None
  ∧ PageHead tail_without_PG_head 0x1000 = Raise (KeyError "PG_head").
Proof.
  split; [reflexivity|].
  exact (proj1 (proj2 (PG_head_absent tail_without_PG_head 0x1000 eq_refl))).
Defined.

(** ** Order, number of pages, size *)

(** C6: a page that is not a head has order 0 and is 1 page; [page_size]
    is [PAGE_SIZE] shifted left by [compound_order], as an [unsigned
    long]; a head reads the order from the descriptor after it, so with
    order 3 and 4096-byte pages it is 8 pages and 32768 bytes. *)
Theorem compound_order_nr_size (prog : Program) (page : Z) :
  (PageHead prog page = Ok false →
     compound_order prog page = Ok 0 ∧ compound_nr prog page = Ok 1)
  ∧ (∀ PAGE_SIZE order : Z,
       prog_lookup prog "PAGE_SIZE" = Ok PAGE_SIZE →
       compound_order prog page = Ok order →
       page_size prog page = Ok (to_u64 (Z.shiftl PAGE_SIZE order)))
  ∧ (PageHead prog page = Ok true →
     ∀ order : Z,
       page_compound_order prog (page_add prog page 1) = Ok order →
       compound_order prog page = Ok (to_u32 order)
       ∧ compound_nr prog page = Ok (to_u64 (Z.shiftl 1 order)))
  ∧ (PageHead prog page = Ok true →
     page_compound_order prog (page_add prog page 1) = Ok 3 →
     prog_lookup prog "PAGE_SIZE" = Ok 4096 →
     compound_nr prog page = Ok 8 ∧ page_size prog page = Ok 32768).
Proof.
  repeat apply conj.
  - intros Hhead. unfold compound_order, compound_nr. by rewrite Hhead.
  - intros PAGE_SIZE order Hsize Horder. unfold page_size.
    by rewrite Hsize, Horder.
  - intros Hhead order Horder. unfold compound_order, compound_nr.
    by rewrite Hhead, Horder.
  - intros Hhead Horder Hsize. unfold page_size, compound_order, compound_nr.
    by rewrite Hsize, Hhead, Horder.
Qed.

Lemma compound_order_nr_size_witness :
  (PageHead order3_compound 0x1040 = Ok false
   ∧ compound_order order3_compound 0x1040 = Ok 0
   ∧ compound_nr order3_compound 0x1040 = Ok 1)
  ∧ (PageHead order3_compound 0x1000 = Ok true
     ∧ compound_nr order3_compound 0x1000 = Ok 8
     ∧ page_size order3_compound 0x1000 = Ok 32768).
Proof.
  split; (split; [reflexivity|]).
  - exact (proj1 (compound_order_nr_size order3_compound 0x1040) eq_refl).
  - exact (proj2 (proj2 (proj2 (compound_order_nr_size order3_compound 0x1000)))
             eq_refl eq_refl eq_refl).
Defined.

(** ** Address translation *)

(** C5: a PFN whose physical address fits [phys_addr_t] comes back from
    [PHYS_PFN (PFN_PHYS pfn)], and every 64-bit address (so every aligned
    one) comes back from [virt_to_phys (phys_to_virt addr)], whatever the
    direct mapping offset, because both the addition and the subtraction
    wrap at 64 bits. *)
Theorem translation_round_trips (prog : Program) :
  (∀ PAGE_SHIFT pfn : Z,
     prog_lookup prog "PAGE_SHIFT" = Ok PAGE_SHIFT →
     0 <= PAGE_SHIFT → 0 <= pfn → pfn * 2 ^ PAGE_SHIFT < 2 ^ 64 →
     PFN_PHYS prog pfn ≫= PHYS_PFN prog = Ok pfn)
  ∧ (∀ offset addr : Z,
       prog_direct_mapping_offset prog = Ok offset →
       is_pointer addr →
       phys_to_virt prog addr ≫= virt_to_phys prog = Ok addr).
Proof.
  split.
  - intros shift pfn Hshift Hs Hpfn Hfits.
    assert (0 < 2 ^ shift) as Hpow by (apply Z.pow_pos_nonneg; lia).
    assert (is_pointer pfn) as Hp by (unfold is_pointer; nia).
    assert (PFN_PHYS prog pfn = Ok (pfn * 2 ^ shift)) as ->.
    { unfold PFN_PHYS. rewrite Hshift. cbn. rewrite (to_u64_small pfn) by done.
      rewrite Z.shiftl_mul_pow2 by done.
      by rewrite to_u64_small by (unfold is_pointer; nia). }
    cbn. unfold PHYS_PFN. rewrite Hshift. cbn.
    rewrite to_u64_small by (unfold is_pointer; nia).
    rewrite Z.shiftr_div_pow2 by done. by rewrite Z.div_mul by lia.
  - intros offset addr Hoff Hp.
    assert (phys_to_virt prog addr = Ok (to_u64 (addr + offset))) as ->.
    { unfold phys_to_virt. by rewrite Hoff. }
    cbn. unfold virt_to_phys. rewrite Hoff. cbn.
    unfold to_u64. rewrite Zminus_mod_idemp_l.
    replace (addr + offset - offset) with addr by lia.
    by rewrite Z.mod_small.
Qed.

Lemma translation_round_trips_witness :
  (prog_lookup two_page_compound "PAGE_SHIFT" = Ok 12
   ∧ PFN_PHYS two_page_compound 0x100 = Ok 0x100000
   ∧ PFN_PHYS two_page_compound 0x100 ≫= PHYS_PFN two_page_compound
     = Ok 0x100)
  ∧ (prog_direct_mapping_offset two_page_compound = Ok 0xffff888000000000
     ∧ is_pointer 0x100000
     ∧ phys_to_virt two_page_compound 0x100000
       ≫= virt_to_phys two_page_compound = Ok 0x100000).
Proof.
  assert (is_pointer 0x100000) as Hp by (unfold is_pointer; lia).
  split.
  - do 2 (split; [reflexivity|]).
    apply (proj1 (translation_round_trips two_page_compound) 12 0x100);
      [reflexivity | lia | lia | reflexivity].
  - split; [reflexivity|]. split; [exact Hp|].
    exact (proj2 (translation_round_trips two_page_compound)
             0xffff888000000000 0x100000 eq_refl Hp).
Defined.

(** ** The page array *)

Lemma page0_raises_KeyError :
  _page0 sparsemem = (Raise (KeyError "contig_page_data"), sparsemem)
  ∧ prog_lookup_contig_page_data sparsemem
    = Raise (KeyError "contig_page_data")
  ∧ is_KeyError (KeyError "contig_page_data") = true.
Proof. split; [|split]; reflexivity. Qed.

(** C7 (amended): [_page0] returns the cached value when the cache has
    one; otherwise it returns [vmemmap] if the program has it, otherwise
    [contig_page_data.node_mem_map - contig_page_data.node_start_pfn]
    (pointer arithmetic), and stores what it found in the cache, so that a
    later call returns the same value from the cache.  When the program
    has neither, the [KeyError] of the lookup of [contig_page_data]
    escapes and the cache is left as it was. *)
Theorem page0_resolution (prog : Program) :
  (∀ page0 : Z,
     prog_cache prog !! "page0" = Some page0 → _page0 prog = (Ok page0, prog))
  ∧ (prog_cache prog !! "page0" = None →
     (∀ vmemmap : Z,
        prog_objects prog !! "vmemmap" = Some vmemmap →
        _page0 prog = (Ok vmemmap, set_cache prog "page0" vmemmap))
     ∧ (prog_objects prog !! "vmemmap" = None →
        (∀ data : pglist_data,
           prog_contig_page_data prog = Some data →
           let page0 :=
             page_sub prog (node_mem_map data) (node_start_pfn data) in
           _page0 prog = (Ok page0, set_cache prog "page0" page0))
        ∧ (prog_contig_page_data prog = None →
           _page0 prog = (Raise (KeyError "contig_page_data"), prog))))
  ∧ (∀ (page0 : Z) (prog' : Program),
       _page0 prog = (Ok page0, prog') →
       prog_cache prog' !! "page0" = Some page0
       ∧ _page0 prog' = (Ok page0, prog')).
Proof.
  split; [|split].
  - intros page0 Hhit. unfold _page0. by rewrite Hhit.
  - intros Hmiss. unfold _page0, prog_lookup, prog_lookup_contig_page_data.
    rewrite Hmiss. split.
    + intros vmemmap Hv. by rewrite Hv.
    + intros Hv. rewrite Hv. split.
      * intros data Hdata. by rewrite Hdata.
      * intros Hdata. by rewrite Hdata.
  - intros page0 prog' Hcall.
    assert (prog_cache prog' !! "page0" = Some page0) as Hcached.
    { revert Hcall. unfold _page0.
      destruct (prog_cache prog !! "page0") as [hit|] eqn:Hhit.
      - by intros [= <- <-].
      - destruct (match prog_lookup prog "vmemmap" with
                  | Ok vmemmap => Ok vmemmap
                  | Raise (KeyError _) => _
                  | Raise e => Raise e
                  end) as [found|e]; [|done].
        intros [= <- <-]. simpl. apply lookup_insert_eq. }
    split; [done|]. unfold _page0. by rewrite Hcached.
Qed.

Lemma page0_resolution_witness :
  prog_cache flatmem !! "page0" = None
  ∧ prog_objects flatmem !! "vmemmap" = None
  ∧ _page0 flatmem = (Ok 0x4c00, set_cache flatmem "page0" 0x4c00)
  ∧ _page0 (set_cache flatmem "page0" 0x4c00)
    = (Ok 0x4c00, set_cache flatmem "page0" 0x4c00).
Proof.
  do 2 (split; [reflexivity|]).
  destruct (page0_resolution flatmem) as (_ & Hmiss & _).
  pose proof (proj1 (proj2 (Hmiss eq_refl) eq_refl) _ eq_refl) as Hflat.
  split; [exact Hflat|].
  destruct (page0_resolution flatmem) as (_ & _ & Hagain).
  exact (proj2 (Hagain _ _ Hflat)).
Defined.

(** ** Iterating over the pages *)

Lemma page_flag_getter_raises_fault (name : string) (prog : Program)
    (page : Z) (e : Exception) :
  page_flag_getter name prog page = Raise e → is_FaultError e = true.
Proof.
  rewrite page_flag_getter_eq.
  destruct (prog_objects prog !! name); [|done].
  destruct (prog_memory prog _); [done|]. by intros [= <-].
Qed.

Lemma for_each_page_try_suspended {A : Type} (body : Program → Z → result A)
    (prog : Program) (page0 stop : Z) :
  (∀ page e, body prog page = Raise e → is_FaultError e = true) →
  ∀ (n : nat) (next_pfn : Z) (fuel : nat),
    Z.to_nat (stop - next_pfn) = n → (n < fuel)%nat →
    for_each_page_try body fuel (Suspended page0 next_pfn stop) prog
    = Some (Ok (omap (completed body prog)
                  (page_add prog page0 <$> seqZ next_pfn (stop - next_pfn))),
            prog).
Proof.
  intros Hbody. induction n as [|n IH]; intros i fuel Hn Hfuel;
    (destruct fuel as [|fuel]; [lia|]);
    cbn [for_each_page_try for_each_page_next]; unfold for_each_page_resume.
  - destruct (Z.ltb_spec i stop); [lia|]. by rewrite seqZ_nil by lia.
  - destruct (Z.ltb_spec i stop); [|lia].
    rewrite seqZ_cons by lia. rewrite fmap_cons. cbn [omap list_omap].
    replace (Z.succ i) with (i + 1) by lia.
    replace (Z.pred (stop - i)) with (stop - (i + 1)) by lia.
    rewrite (IH (i + 1) fuel) by lia.
    unfold completed.
    destruct (body prog (page_add prog page0 i)) as [a|e] eqn:Hvisit; [done|].
    apply Hbody in Hvisit. by destruct e.
Qed.

Lemma _page0_preserves (prog prog' : Program) (r : result Z) :
  _page0 prog = (r, prog') →
  prog_objects prog' = prog_objects prog
  ∧ sizeof_page prog' = sizeof_page prog
  ∧ prog_memory prog' = prog_memory prog.
Proof.
  unfold _page0. destruct (prog_cache prog !! "page0"); [by intros [= <- <-]|].
  destruct (match prog_lookup prog "vmemmap" with
            | Ok vmemmap => Ok vmemmap
            | Raise (KeyError _) => _
            | Raise e => Raise e
            end); by intros [= <- <-].
Qed.

Lemma for_each_page_try_created {A : Type} (body : Program → Z → result A)
    (prog prog' : Program) (page0 lo hi : Z) (fuel : nat) :
  _page0 prog = (Ok page0, prog') →
  prog_lookup prog "min_low_pfn" = Ok lo →
  prog_lookup prog "max_pfn" = Ok hi →
  for_each_page_try body fuel Created prog
  = for_each_page_try body fuel (Suspended page0 lo hi) prog'.
Proof.
  intros Hpage0 Hlo Hhi. destruct fuel as [|fuel]; [done|].
  destruct (_page0_preserves _ _ _ Hpage0) as (Hobj & _ & _).
  cbn [for_each_page_try for_each_page_next]. rewrite Hpage0.
  unfold prog_lookup in *. rewrite Hobj, Hlo, Hhi. done.
Qed.

(** C9: [for_each_page] yields [page0 + pfn] (pointer arithmetic) for
    every [pfn] of [range(min_low_pfn, max_pfn)], that is from the lowest
    PFN up to the highest one, [max_pfn - 1], each once and in increasing
    order; a resumption of the suspended generator computes the next
    pointer from the frame alone, the same on any target memory; and the
    caller's loop that skips a [FaultError] of its body goes on to every
    later page, keeping exactly the pages on which the body completed. *)
Theorem for_each_page_every_pfn (prog prog' : Program) (page0 lo hi : Z) :
  _page0 prog = (Ok page0, prog') →
  prog_lookup prog "min_low_pfn" = Ok lo →
  prog_lookup prog "max_pfn" = Ok hi →
  let pages := page_add prog page0 <$> seqZ lo (hi - lo) in
  (∀ fuel : nat,
     (Z.to_nat (hi - lo) < fuel)%nat →
     for_each_page_list fuel prog = Some (Ok pages, prog'))
  ∧ (∀ (pfn : Z) (other : Program),
       sizeof_page other = sizeof_page prog →
       for_each_page_next (Suspended page0 pfn hi) other
       = (if pfn <? hi
          then (Ok (Some (page_add prog page0 pfn)),
                Suspended page0 (pfn + 1) hi)
          else (Ok None, Finished),
          other))
  ∧ (∀ (A : Type) (body : Program → Z → result A) (fuel : nat),
       (∀ page e, body prog' page = Raise e → is_FaultError e = true) →
       (Z.to_nat (hi - lo) < fuel)%nat →
       for_each_page_try body fuel Created prog
       = Some (Ok (omap (completed body prog') pages), prog'))
  ∧ (∀ (name : string) (fuel : nat),
       (Z.to_nat (hi - lo) < fuel)%nat →
       for_each_page_try (page_flag_getter name) fuel Created prog
       = Some (Ok (omap (completed (page_flag_getter name) prog') pages),
               prog')).
Proof.
  intros Hpage0 Hlo Hhi pages.
  destruct (_page0_preserves _ _ _ Hpage0) as (_ & Hsize & _).
  assert (page_add prog' page0 = page_add prog page0) as Hadd.
  { unfold page_add. by rewrite Hsize. }
  assert (∀ (A : Type) (body : Program → Z → result A) (fuel : nat),
            (∀ page e, body prog' page = Raise e → is_FaultError e = true) →
            (Z.to_nat (hi - lo) < fuel)%nat →
            for_each_page_try body fuel Created prog
            = Some (Ok (omap (completed body prog') pages), prog')) as Hloop.
  { intros A body fuel Hbody Hfuel.
    rewrite (for_each_page_try_created body prog prog' page0 lo hi) by done.
    rewrite (for_each_page_try_suspended body prog' page0 hi Hbody
               (Z.to_nat (hi - lo))) by done.
    by rewrite Hadd. }
  split; [|split; [|split]].
  - intros fuel Hfuel. unfold for_each_page_list.
    rewrite Hloop by done. do 3 f_equal.
    clear. induction pages as [|page pages IH]; [done|].
    cbn. by rewrite IH.
  - intros pfn other Hother. cbn. unfold for_each_page_resume, page_add.
    by rewrite Hother.
  - exact Hloop.
  - intros name fuel Hfuel. apply Hloop; [|done].
    intros page e. apply page_flag_getter_raises_fault.
Qed.

Lemma for_each_page_every_pfn_witness :
  _page0 offline_pfn5 = (Ok 0x1000, set_cache offline_pfn5 "page0" 0x1000)
  ∧ prog_lookup offline_pfn5 "min_low_pfn" = Ok 0
  ∧ prog_lookup offline_pfn5 "max_pfn" = Ok 10
  ∧ PageLRU offline_pfn5 0x1140 = Raise (FaultError 0x1140)
  ∧ for_each_page_list 11 offline_pfn5
    = Some (Ok [0x1000; 0x1040; 0x1080; 0x10c0; 0x1100; 0x1140; 0x1180;
                0x11c0; 0x1200; 0x1240],
            set_cache offline_pfn5 "page0" 0x1000)
  ∧ for_each_page_try PageLRU 11 Created offline_pfn5
    = Some (Ok [(0x1000, true); (0x1040, false); (0x1080, true);
                (0x10c0, false); (0x1100, true); (0x1180, true);
                (0x11c0, false); (0x1200, true); (0x1240, false)],
            set_cache offline_pfn5 "page0" 0x1000).
Proof.
  do 4 (split; [reflexivity|]).
  assert (Z.to_nat (10 - 0) < 11)%nat as Hfuel by (vm_compute; lia).
  destruct (for_each_page_every_pfn offline_pfn5
              (set_cache offline_pfn5 "page0" 0x1000) 0x1000 0 10
              eq_refl eq_refl eq_refl) as (Hlist & _ & _ & Hgetter).
  split; [exact (Hlist 11%nat Hfuel) | exact (Hgetter "PG_lru" 11%nat Hfuel)].
Defined.

(** ** Compound pages: how the predicates fit together *)

(** X1: whenever [PageHead] and [PageTail] both return, [PageCompound]
    returns too, and a page is compound exactly when it is a head or a
    tail. *)
Theorem PageCompound_is_head_or_tail (prog : Program) (page : Z)
    (is_head is_tail : bool) :
  PageHead prog page = Ok is_head →
  PageTail prog page = Ok is_tail →
  PageCompound prog page = Ok (is_head || is_tail).
Proof.
  unfold PageHead, PageTail, PageCompound.
  destruct (page_head_flag prog page) as [flag|e]; simpl; [|done].
  destruct (page_compound_head prog page) as [own|e]; simpl;
    [|by destruct (truthy flag)].
  destruct (truthy flag), (truthy (Z.land own 1)); simpl.
  - destruct (_page_is_fake_head prog page) as [fake|e]; simpl; [|done].
    intros [= <-] [= <-]. by rewrite orb_true_r.
  - destruct (_page_is_fake_head prog page) as [fake|e]; simpl; [|done].
    intros [= <-] [= <-]. by destruct fake.
  - by intros [= <-] [= <-].
  - by intros [= <-] [= <-].
Qed.

Lemma PageCompound_is_head_or_tail_witness :
  PageHead two_page_compound 0x1040 = Ok false
  ∧ PageTail two_page_compound 0x1040 = Ok true
  ∧ PageCompound two_page_compound 0x1040 = Ok true.
Proof.
  do 2 (split; [reflexivity|]).
  exact (PageCompound_is_head_or_tail two_page_compound 0x1040 false true
           eq_refl eq_refl).
Defined.

(** X2: a page that [PageCompound] finds not compound is neither head nor
    tail, is its own head, has order 0, is 1 page and [PAGE_SIZE] bytes;
    none of these calls reads the descriptor after the page, so they
    succeed even when that descriptor cannot be read. *)
Theorem not_compound_page (prog : Program) (page : Z) :
  PageCompound prog page = Ok false →
  PageHead prog page = Ok false
  ∧ PageTail prog page = Ok false
  ∧ compound_head prog page = Ok page
  ∧ compound_order prog page = Ok 0
  ∧ compound_nr prog page = Ok 1
  ∧ ∀ PAGE_SIZE : Z,
      prog_lookup prog "PAGE_SIZE" = Ok PAGE_SIZE →
      page_size prog page = Ok (to_u64 PAGE_SIZE).
Proof.
  unfold PageCompound.
  destruct (page_head_flag prog page) as [flag|e] eqn:Hflag; simpl; [|done].
  destruct (truthy flag) eqn:Ht; [done|].
  destruct (page_compound_head prog page) as [own|e] eqn:Hown; simpl; [|done].
  intros [= Hlow].
  assert (PageHead prog page = Ok false) as Hhead.
  { unfold PageHead. by rewrite Hflag; simpl; rewrite Ht. }
  split; [done|]. split.
  { unfold PageTail. rewrite Hown. simpl. rewrite Hlow, Hflag. simpl.
    by rewrite Ht. }
  split.
  { unfold compound_head. rewrite Hown. simpl. rewrite Hlow, Hflag. simpl.
    by rewrite Ht. }
  unfold page_size, compound_order, compound_nr. rewrite Hhead. simpl.
  do 2 (split; [done|]). intros PAGE_SIZE ->. simpl.
  by rewrite Z.shiftl_0_r.
Qed.

Lemma not_compound_page_witness :
  PageCompound last_page 0x1000 = Ok false
  ∧ _page_is_fake_head last_page 0x1000 = Raise (FaultError 0x1048)
  ∧ compound_head last_page 0x1000 = Ok 0x1000
  ∧ page_size last_page 0x1000 = Ok 4096.
Proof.
  do 2 (split; [reflexivity|]).
  destruct (not_compound_page last_page 0x1000 eq_refl)
    as (_ & _ & Hhead & _ & _ & Hsize).
  split; [exact Hhead | exact (Hsize 4096 eq_refl)].
Defined.

(** X3: the docstring of [compound_head].  On a page that is not a tail
    it returns the page.  On a tail it returns the word it found tagged,
    in the page or in the descriptor after it, minus 1; the call reads
    nothing [PageTail] did not read, so it does not fail. *)
Theorem compound_head_by_PageTail (prog : Program) (page : Z) :
  is_pointer page →
  (PageTail prog page = Ok false → compound_head prog page = Ok page)
  ∧ (PageTail prog page = Ok true →
     ∃ word : Z,
       (page_compound_head prog page = Ok word
        ∨ page_compound_head prog (page_add prog page 1) = Ok word)
       ∧ Z.odd word = true
       ∧ compound_head prog page = Ok (word - 1)).
Proof.
  intros Hp. split; [by apply compound_head_fixed|].
  unfold PageTail, compound_head.
  destruct (page_compound_head prog page) as [own|e] eqn:Hown; simpl; [|done].
  rewrite truthy_low_bit. destruct (Z.odd own) eqn:Hodd.
  { intros _. exists own. split; [by left|]. split; [done|].
    by rewrite untag_small by eauto using page_compound_head_range. }
  destruct (page_head_flag prog page) as [flag|e]; simpl; [|done].
  destruct (truthy flag); [|done].
  unfold _page_is_fake_head.
  destruct (page_compound_head prog (page_add prog page 1)) as [next|e]
    eqn:Hnext; simpl; [|done].
  rewrite truthy_low_bit. destruct (Z.odd next) eqn:Hoddn; simpl; [|done].
  intros _. exists next. split; [by right|]. split; [done|].
  by rewrite untag_small by eauto using page_compound_head_range.
Qed.

Lemma compound_head_by_PageTail_witness :
  is_pointer 0x1040
  ∧ PageTail two_page_compound 0x1040 = Ok true
  ∧ ∃ word : Z,
      (page_compound_head two_page_compound 0x1040 = Ok word
       ∨ page_compound_head two_page_compound
           (page_add two_page_compound 0x1040 1) = Ok word)
      ∧ Z.odd word = true
      ∧ compound_head two_page_compound 0x1040 = Ok (word - 1).
Proof.
  assert (is_pointer 0x1040) as Hp by (unfold is_pointer; lia).
  split; [exact Hp|]. split; [reflexivity|].
  exact (proj2 (compound_head_by_PageTail two_page_compound 0x1040 Hp)
           eq_refl).
Defined.

(** X4: [page_size] is [PAGE_SIZE] times [compound_nr], as an [unsigned
    long], when the [compound_order] member is at most 32 bits wide (so
    that the cast to [unsigned int] in [compound_order] keeps it). *)
Theorem page_size_is_PAGE_SIZE_times_compound_nr (prog : Program)
    (page PAGE_SIZE nr : Z) :
  (∀ order : Z,
     page_compound_order prog (page_add prog page 1) = Ok order →
     order < 2 ^ 32) →
  prog_lookup prog "PAGE_SIZE" = Ok PAGE_SIZE →
  compound_nr prog page = Ok nr →
  page_size prog page = Ok (to_u64 (PAGE_SIZE * nr)).
Proof.
  intros Hwidth Hsize. unfold page_size, compound_nr, compound_order.
  rewrite Hsize. simpl.
  destruct (PageHead prog page) as [[|]|e]; simpl; [| |done].
  - destruct (page_compound_order prog (page_add prog page 1))
      as [order|e] eqn:Horder; simpl; [|done].
    intros [= <-]. pose proof (read_u64_range _ _ _ Horder) as [Hlo _].
    specialize (Hwidth order eq_refl).
    unfold to_u32. rewrite (Z.mod_small order) by lia.
    rewrite Z.shiftl_1_l, Z.shiftl_mul_pow2 by done.
    unfold to_u64. by rewrite Zmult_mod_idemp_r.
  - intros [= <-]. by rewrite Z.shiftl_0_r, Z.mul_1_r.
Qed.

Lemma page_size_is_PAGE_SIZE_times_compound_nr_witness :
  prog_lookup order3_compound "PAGE_SIZE" = Ok 4096
  ∧ compound_nr order3_compound 0x1000 = Ok 8
  ∧ page_size order3_compound 0x1000 = Ok (to_u64 (4096 * 8)).
Proof.
  do 2 (split; [reflexivity|]).
  apply (page_size_is_PAGE_SIZE_times_compound_nr order3_compound 0x1000
           4096 8); [|reflexivity|reflexivity].
  intros order Horder. vm_compute in Horder. injection Horder as <-. lia.
Defined.

(** ** Address translation: compositions *)

Lemma to_u64_to_s64 (z : Z) : to_u64 (to_s64 z) = to_u64 z.
Proof.
  unfold to_u64, to_s64. rewrite Zminus_mod_idemp_l. f_equal. lia.
Qed.

Lemma PFN_PHYS_small (prog : Program) (PAGE_SHIFT pfn : Z) :
  prog_lookup prog "PAGE_SHIFT" = Ok PAGE_SHIFT →
  0 <= PAGE_SHIFT → 0 <= pfn → pfn * 2 ^ PAGE_SHIFT < 2 ^ 64 →
  PFN_PHYS prog pfn = Ok (pfn * 2 ^ PAGE_SHIFT).
Proof.
  intros Hshift Hs Hpfn Hfits.
  assert (0 < 2 ^ PAGE_SHIFT) by (apply Z.pow_pos_nonneg; lia).
  unfold PFN_PHYS. rewrite Hshift. cbn.
  rewrite (to_u64_small pfn) by (unfold is_pointer; nia).
  rewrite Z.shiftl_mul_pow2 by done.
  by rewrite to_u64_small by (unfold is_pointer; nia).
Qed.

Lemma PHYS_PFN_div (prog : Program) (PAGE_SHIFT addr : Z) :
  prog_lookup prog "PAGE_SHIFT" = Ok PAGE_SHIFT →
  0 <= PAGE_SHIFT → is_pointer addr →
  PHYS_PFN prog addr = Ok (addr / 2 ^ PAGE_SHIFT).
Proof.
  intros Hshift Hs Hp. unfold PHYS_PFN. rewrite Hshift. cbn.
  by rewrite to_u64_small, Z.shiftr_div_pow2.
Qed.

Lemma _page0_again (prog prog' : Program) (page0 : Z) :
  _page0 prog = (Ok page0, prog') → _page0 prog' = (Ok page0, prog').
Proof.
  intros Hcall.
  assert (prog_cache prog' !! "page0" = Some page0) as Hcached.
  { revert Hcall. unfold _page0.
    destruct (prog_cache prog !! "page0") as [hit|] eqn:Hhit.
    - by intros [= <- <-].
    - destruct (match prog_lookup prog "vmemmap" with
                | Ok vmemmap => Ok vmemmap
                | Raise (KeyError _) => _
                | Raise e => Raise e
                end) as [found|e]; [|done].
      intros [= <- <-]. simpl. apply lookup_insert_eq. }
  unfold _page0. by rewrite Hcached.
Qed.

(** X5: [page_to_pfn] undoes [pfn_to_page]: for a PFN whose descriptor
    lies in the address space above [page0] (no wrap-around),
    [pfn_to_page] returns [page0 + pfn * sizeof(struct page)] and
    [page_to_pfn] of that pointer returns the PFN. *)
Theorem page_to_pfn_of_pfn_to_page (prog prog' : Program) (page0 pfn : Z) :
  _page0 prog = (Ok page0, prog') →
  is_pointer page0 →
  0 < sizeof_page prog →
  0 <= pfn →
  page0 + pfn * sizeof_page prog < 2 ^ 64 →
  pfn_to_page prog pfn = (Ok (page0 + pfn * sizeof_page prog), prog')
  ∧ page_to_pfn prog' (page0 + pfn * sizeof_page prog) = (Ok pfn, prog').
Proof.
  intros Hpage0 Hp Hsize Hpfn Hfits.
  destruct (_page0_preserves _ _ _ Hpage0) as (_ & Hsize' & _).
  unfold is_pointer in Hp. split.
  - unfold pfn_to_page. rewrite Hpage0. unfold page_add. rewrite Hsize'.
    by rewrite to_u64_small by (unfold is_pointer; nia).
  - unfold page_to_pfn. rewrite (_page0_again _ _ _ Hpage0).
    unfold page_diff. rewrite Hsize'.
    replace (page0 + pfn * sizeof_page prog - page0)
      with (pfn * sizeof_page prog) by lia.
    rewrite Z.quot_mul by lia. rewrite to_u64_to_s64.
    by rewrite to_u64_small by (unfold is_pointer; nia).
Qed.

Lemma page_to_pfn_of_pfn_to_page_witness :
  _page0 two_page_compound
    = (Ok 0x1000, set_cache two_page_compound "page0" 0x1000)
  ∧ pfn_to_page two_page_compound 7
    = (Ok 0x11c0, set_cache two_page_compound "page0" 0x1000)
  ∧ page_to_pfn (set_cache two_page_compound "page0" 0x1000) 0x11c0
    = (Ok 7, set_cache two_page_compound "page0" 0x1000).
Proof.
  split; [reflexivity|].
  apply (page_to_pfn_of_pfn_to_page two_page_compound
           (set_cache two_page_compound "page0" 0x1000) 0x1000 7);
    [reflexivity | unfold is_pointer; lia | reflexivity | lia | reflexivity].
Defined.

(** X6: [virt_to_pfn] undoes [pfn_to_virt] for every PFN whose physical
    address fits 64 bits, whatever the direct mapping offset. *)
Theorem virt_to_pfn_of_pfn_to_virt (prog : Program)
    (PAGE_SHIFT offset pfn : Z) :
  prog_lookup prog "PAGE_SHIFT" = Ok PAGE_SHIFT →
  prog_direct_mapping_offset prog = Ok offset →
  0 <= PAGE_SHIFT → 0 <= pfn → pfn * 2 ^ PAGE_SHIFT < 2 ^ 64 →
  pfn_to_virt prog pfn ≫= virt_to_pfn prog = Ok pfn.
Proof.
  intros Hshift Hoff Hs Hpfn Hfits.
  assert (0 < 2 ^ PAGE_SHIFT) by (apply Z.pow_pos_nonneg; lia).
  unfold pfn_to_virt. rewrite (PFN_PHYS_small _ _ _ Hshift) by done. cbn.
  unfold phys_to_virt. rewrite Hoff. cbn.
  unfold virt_to_pfn, virt_to_phys. rewrite Hoff. cbn.
  unfold to_u64 at 1 2. rewrite Zminus_mod_idemp_l.
  replace (pfn * 2 ^ PAGE_SHIFT + offset - offset)
    with (pfn * 2 ^ PAGE_SHIFT) by lia.
  rewrite Z.mod_small by lia.
  rewrite (PHYS_PFN_div _ _ _ Hshift) by (done || unfold is_pointer; lia).
  by rewrite Z.div_mul by lia.
Qed.

Lemma virt_to_pfn_of_pfn_to_virt_witness :
  pfn_to_virt two_page_compound 0x100 = Ok 0xffff888000100000
  ∧ pfn_to_virt two_page_compound 0x100 ≫= virt_to_pfn two_page_compound
    = Ok 0x100.
Proof.
  split; [reflexivity|].
  apply (virt_to_pfn_of_pfn_to_virt two_page_compound 12
           0xffff888000000000 0x100); [reflexivity|reflexivity|lia|lia|].
  reflexivity.
Defined.

(** X7: [PHYS_PFN] is the frame that contains the address: every address
    of the frame maps to its PFN, and [PFN_PHYS (PHYS_PFN addr)] is [addr]
    rounded down to the frame, so it is [addr] exactly for the addresses
    that are multiples of [2 ^ PAGE_SHIFT]. *)
Theorem PHYS_PFN_frame (prog : Program) (PAGE_SHIFT : Z) :
  prog_lookup prog "PAGE_SHIFT" = Ok PAGE_SHIFT →
  0 <= PAGE_SHIFT →
  (∀ pfn off : Z,
     0 <= pfn → 0 <= off < 2 ^ PAGE_SHIFT →
     pfn * 2 ^ PAGE_SHIFT + off < 2 ^ 64 →
     PHYS_PFN prog (pfn * 2 ^ PAGE_SHIFT + off) = Ok pfn)
  ∧ (∀ addr : Z,
       is_pointer addr →
       PHYS_PFN prog addr ≫= PFN_PHYS prog
       = Ok (addr - addr mod 2 ^ PAGE_SHIFT)).
Proof.
  intros Hshift Hs.
  assert (0 < 2 ^ PAGE_SHIFT) as Hpow by (apply Z.pow_pos_nonneg; lia).
  split.
  - intros pfn off Hpfn Hoff Hfits.
    rewrite (PHYS_PFN_div _ _ _ Hshift) by (done || unfold is_pointer; nia).
    f_equal. rewrite Z.add_comm, Z.div_add by lia.
    rewrite Z.div_small by lia. lia.
  - intros addr [Hlo Hhi].
    rewrite (PHYS_PFN_div _ _ _ Hshift) by done. cbn.
    pose proof (Z.div_mod addr (2 ^ PAGE_SHIFT) ltac:(lia)) as Hdm.
    pose proof (Z.mod_pos_bound addr (2 ^ PAGE_SHIFT) Hpow) as Hmod.
    assert (0 <= addr / 2 ^ PAGE_SHIFT) by (apply Z.div_pos; lia).
    rewrite (PFN_PHYS_small _ _ _ Hshift) by (done || nia).
    f_equal. lia.
Qed.

Lemma PHYS_PFN_frame_witness :
  prog_lookup two_page_compound "PAGE_SHIFT" = Ok 12
  ∧ PHYS_PFN two_page_compound 0x100fff = Ok 0x100
  ∧ PHYS_PFN two_page_compound 0x100fff ≫= PFN_PHYS two_page_compound
    = Ok 0x100000.
Proof.
  split; [reflexivity|].
  destruct (PHYS_PFN_frame two_page_compound 12 eq_refl ltac:(lia))
    as [Hframe Hdown].
  split.
  - apply (Hframe 0x100 0xfff); [lia | lia | reflexivity].
  - apply (Hdown 0x100fff). unfold is_pointer. lia.
Defined.

Lemma _page0_cases (prog prog' : Program) (r : result Z) :
  _page0 prog = (r, prog') →
  prog' = prog
  ∨ ∃ page0 : Z,
      r = Ok page0 ∧ prog_cache prog !! "page0" = None
      ∧ prog' = set_cache prog "page0" page0.
Proof.
  unfold _page0.
  destruct (prog_cache prog !! "page0") as [hit|]; [intros [= <- <-]; by left|].
  destruct (match prog_lookup prog "vmemmap" with
            | Ok vmemmap => Ok vmemmap
            | Raise (KeyError _) => _
            | Raise e => Raise e
            end) as [found|e]; intros [= <- <-]; [right; by eexists | by left].
Qed.

Lemma prog_lookup_after_page0 (prog prog' : Program) (r : result Z)
    (name : string) :
  _page0 prog = (r, prog') → prog_lookup prog' name = prog_lookup prog name.
Proof.
  intros Hcall. destruct (_page0_preserves _ _ _ Hcall) as (Hobj & _ & _).
  unfold prog_lookup. by rewrite Hobj.
Qed.

Lemma virt_to_pfn_small (prog : Program) (PAGE_SHIFT offset pfn : Z) :
  prog_lookup prog "PAGE_SHIFT" = Ok PAGE_SHIFT →
  prog_direct_mapping_offset prog = Ok offset →
  0 <= PAGE_SHIFT → 0 <= pfn → pfn * 2 ^ PAGE_SHIFT < 2 ^ 64 →
  virt_to_pfn prog (to_u64 (pfn * 2 ^ PAGE_SHIFT + offset)) = Ok pfn.
Proof.
  intros Hshift Hoff Hs Hpfn Hfits.
  assert (0 < 2 ^ PAGE_SHIFT) by (apply Z.pow_pos_nonneg; lia).
  unfold virt_to_pfn, virt_to_phys. rewrite Hoff. cbn.
  unfold to_u64 at 1 2. rewrite Zminus_mod_idemp_l.
  replace (pfn * 2 ^ PAGE_SHIFT + offset - offset)
    with (pfn * 2 ^ PAGE_SHIFT) by lia.
  rewrite Z.mod_small by lia.
  rewrite (PHYS_PFN_div _ _ _ Hshift) by (done || unfold is_pointer; lia).
  by rewrite Z.div_mul by lia.
Qed.

(** X8: [phys_to_page] of any address inside the frame of a PFN, and
    [virt_to_page] of the directly mapped address of the PFN, are
    [pfn_to_page] of that PFN: same pointer, same effect on the cache. *)
Theorem page_of_address_is_pfn_to_page (prog : Program)
    (PAGE_SHIFT pfn : Z) :
  prog_lookup prog "PAGE_SHIFT" = Ok PAGE_SHIFT →
  0 <= PAGE_SHIFT → 0 <= pfn →
  (∀ off : Z,
     0 <= off < 2 ^ PAGE_SHIFT →
     pfn * 2 ^ PAGE_SHIFT + off < 2 ^ 64 →
     phys_to_page prog (pfn * 2 ^ PAGE_SHIFT + off) = pfn_to_page prog pfn)
  ∧ (∀ offset virt : Z,
       prog_direct_mapping_offset prog = Ok offset →
       pfn * 2 ^ PAGE_SHIFT < 2 ^ 64 →
       pfn_to_virt prog pfn = Ok virt →
       virt_to_page prog virt = pfn_to_page prog pfn).
Proof.
  intros Hshift Hs Hpfn.
  assert (0 < 2 ^ PAGE_SHIFT) as Hpow by (apply Z.pow_pos_nonneg; lia).
  split.
  - intros off Hoff Hfits. unfold phys_to_page.
    rewrite (PHYS_PFN_div _ _ _ Hshift) by (done || unfold is_pointer; nia).
    rewrite Z.add_comm, Z.div_add by lia.
    rewrite Z.div_small by lia. done.
  - intros offset virt Hoff Hfits. unfold pfn_to_virt.
    rewrite (PFN_PHYS_small _ _ _ Hshift) by done. cbn.
    unfold phys_to_virt. rewrite Hoff. cbn. intros [= <-].
    unfold virt_to_page.
    by rewrite (virt_to_pfn_small _ _ _ _ Hshift Hoff).
Qed.

Lemma page_of_address_is_pfn_to_page_witness :
  prog_lookup two_page_compound "PAGE_SHIFT" = Ok 12
  ∧ phys_to_page two_page_compound 0x7123
    = (Ok 0x11c0, set_cache two_page_compound "page0" 0x1000)
  ∧ virt_to_page two_page_compound 0xffff888000007000
    = (Ok 0x11c0, set_cache two_page_compound "page0" 0x1000).
Proof.
  split; [reflexivity|].
  destruct (page_of_address_is_pfn_to_page two_page_compound 12 7 eq_refl
              ltac:(lia) ltac:(lia)) as [Hphys Hvirt].
  split.
  - exact (Hphys 0x123 ltac:(lia) eq_refl).
  - exact (Hvirt 0xffff888000000000 0xffff888000007000 eq_refl eq_refl
             eq_refl).
Defined.

(** X9: [page_to_phys] and [page_to_virt] of the pointer that
    [pfn_to_page] returns are [PFN_PHYS] and [pfn_to_virt] of the PFN,
    for a PFN whose descriptor lies above [page0] without wrap-around. *)
Theorem address_of_pfn_to_page (prog prog' : Program) (page0 pfn page : Z) :
  _page0 prog = (Ok page0, prog') →
  is_pointer page0 →
  0 < sizeof_page prog →
  0 <= pfn →
  page0 + pfn * sizeof_page prog < 2 ^ 64 →
  pfn_to_page prog pfn = (Ok page, prog') →
  page_to_phys prog' page = (PFN_PHYS prog pfn, prog')
  ∧ page_to_virt prog' page = (pfn_to_virt prog pfn, prog').
Proof.
  intros Hpage0 Hp Hsize Hpfn Hfits Hpage.
  destruct (_page0_preserves _ _ _ Hpage0) as (Hobj & Hsize' & _).
  assert (page = page0 + pfn * sizeof_page prog) as ->.
  { revert Hpage. unfold pfn_to_page. rewrite Hpage0. unfold page_add.
    rewrite Hsize'. unfold is_pointer in Hp.
    rewrite to_u64_small by (unfold is_pointer; nia). by intros [= <-]. }
  assert (page_to_pfn prog' (page0 + pfn * sizeof_page prog)
          = (Ok pfn, prog')) as Hback.
  { unfold page_to_pfn. rewrite (_page0_again _ _ _ Hpage0).
    unfold page_diff. rewrite Hsize'.
    replace (page0 + pfn * sizeof_page prog - page0)
      with (pfn * sizeof_page prog) by lia.
    rewrite Z.quot_mul by lia. rewrite to_u64_to_s64.
    unfold is_pointer in Hp.
    by rewrite to_u64_small by (unfold is_pointer; nia). }
  unfold page_to_phys, page_to_virt. rewrite Hback.
  unfold pfn_to_virt, PFN_PHYS, prog_lookup. rewrite Hobj.
  split; [done|]. f_equal.
  destruct (prog_objects prog !! "PAGE_SHIFT"); [|done]. cbn.
  unfold phys_to_virt.
  by destruct (_page0_cases _ _ _ Hpage0) as [->|(v & _ & _ & ->)].
Qed.

Lemma address_of_pfn_to_page_witness :
  pfn_to_page two_page_compound 7
    = (Ok 0x11c0, set_cache two_page_compound "page0" 0x1000)
  ∧ page_to_phys (set_cache two_page_compound "page0" 0x1000) 0x11c0
    = (Ok 0x7000, set_cache two_page_compound "page0" 0x1000)
  ∧ page_to_virt (set_cache two_page_compound "page0" 0x1000) 0x11c0
    = (Ok 0xffff888000007000, set_cache two_page_compound "page0" 0x1000).
Proof.
  split; [reflexivity|].
  apply (address_of_pfn_to_page two_page_compound
           (set_cache two_page_compound "page0" 0x1000) 0x1000 7 0x11c0);
    [reflexivity | unfold is_pointer; lia | reflexivity | lia | reflexivity
    | reflexivity].
Defined.

(** ** What resolving the page array changes *)

(** X10: a call of [_page0], of [pfn_to_page] with a PFN in
    [0, 2 ^ 64), or of [page_to_pfn] with a 64-bit pointer ([struct page]
    of nonzero size) leaves the program as it was, except that a call
    that returns may have filled the empty cache slot ["page0"] with the
    base of the page array; such a call that raises changes nothing, and
    a filled slot is never overwritten. *)
Theorem page0_fills_one_cache_slot (prog prog' : Program) (r : result Z) :
  (_page0 prog = (r, prog')
   ∨ (∃ pfn, 0 <= pfn < 2 ^ 64 ∧ pfn_to_page prog pfn = (r, prog'))
   ∨ (∃ page, is_pointer page ∧ 0 < sizeof_page prog
              ∧ page_to_pfn prog page = (r, prog'))) →
  prog' = prog
  ∨ ∃ page0 : Z,
      (_page0 prog).1 = Ok page0
      ∧ (∃ v : Z, r = Ok v)
      ∧ prog_cache prog !! "page0" = None
      ∧ prog' = set_cache prog "page0" page0.
Proof.
  assert (∀ r0 prog0, _page0 prog = (r0, prog0) →
            prog0 = prog
            ∨ ∃ page0 : Z,
                (_page0 prog).1 = Ok page0 ∧ r0 = Ok page0
                ∧ prog_cache prog !! "page0" = None
                ∧ prog0 = set_cache prog "page0" page0) as Hbase.
  { intros r0 prog0 Hcall.
    destruct (_page0_cases _ _ _ Hcall) as [->|(v & -> & Hmiss & ->)];
      [by left|].
    right. exists v. by rewrite Hcall. }
  intros [Hcall|[(pfn & _ & Hcall)|(page & _ & _ & Hcall)]].
  - destruct (Hbase _ _ Hcall) as [->|(v & ? & -> & ? & ->)]; [by left|].
    right. exists v. eauto.
  - unfold pfn_to_page in Hcall.
    destruct (_page0 prog) as [[page0|e] prog0] eqn:Hpage0;
      injection Hcall as <- <-;
      (destruct (Hbase _ _ eq_refl) as [->|(v & ? & ? & ? & ->)];
       [by left|]); right; exists v; eauto.
  - unfold page_to_pfn in Hcall.
    destruct (_page0 prog) as [[page0|e] prog0] eqn:Hpage0;
      injection Hcall as <- <-;
      (destruct (Hbase _ _ eq_refl) as [->|(v & ? & ? & ? & ->)];
       [by left|]); right; exists v; eauto.
Qed.

Lemma page0_fills_one_cache_slot_witness :
  0 <= 7 < 2 ^ 64
  ∧ pfn_to_page two_page_compound 7
    = (Ok 0x11c0, set_cache two_page_compound "page0" 0x1000)
  ∧ ∃ page0 : Z,
      (_page0 two_page_compound).1 = Ok page0
      ∧ (∃ v : Z, Ok 0x11c0 = Ok v)
      ∧ prog_cache two_page_compound !! "page0" = None
      ∧ set_cache two_page_compound "page0" 0x1000
        = set_cache two_page_compound "page0" page0.
Proof.
  assert (0 <= 7 < 2 ^ 64) as Hpfn by lia.
  split; [exact Hpfn|]. split; [reflexivity|].
  destruct (page0_fills_one_cache_slot two_page_compound
              (set_cache two_page_compound "page0" 0x1000) (Ok 0x11c0)
              (or_intror (or_introl
                 (ex_intro _ 7 (conj Hpfn eq_refl))))) as [Hsame|Hfilled].
  - exfalso.
    assert (prog_cache (set_cache two_page_compound "page0" 0x1000)
              !! "page0"
            = prog_cache two_page_compound !! "page0") as Hcache
      by (by rewrite Hsame).
    discriminate Hcache.
  - exact Hfilled.
Defined.

(** ** More on iterating over the pages *)

Lemma fst_completed_unit (prog : Program) (pages : list Z) :
  (omap (completed (λ _ _, Ok tt) prog) pages).*1 = pages.
Proof. induction pages as [|page pages IH]; [done|]. cbn. by rewrite IH. Qed.

Lemma for_each_page_list_pages (prog prog' : Program) (page0 lo hi : Z)
    (fuel : nat) :
  _page0 prog = (Ok page0, prog') →
  prog_lookup prog "min_low_pfn" = Ok lo →
  prog_lookup prog "max_pfn" = Ok hi →
  (Z.to_nat (hi - lo) < fuel)%nat →
  for_each_page_list fuel prog
  = Some (Ok (page_add prog page0 <$> seqZ lo (hi - lo)), prog').
Proof.
  intros Hpage0 Hlo Hhi Hfuel. unfold for_each_page_list.
  destruct (_page0_preserves _ _ _ Hpage0) as (_ & Hsize & _).
  rewrite (for_each_page_try_created _ prog prog' page0 lo hi) by done.
  assert (∀ (page : Z) (e : Exception),
            (λ (_ : Program) (_ : Z), Ok tt) prog' page = Raise e →
            is_FaultError e = true) as Hbody by done.
  rewrite (for_each_page_try_suspended _ prog' page0 hi Hbody
             (Z.to_nat (hi - lo))) by done.
  rewrite fst_completed_unit. unfold page_add. by rewrite Hsize.
Qed.

(** X11: [for_each_page] can be started again: a second enumeration, on
    the program as the first one left it, yields the same pointers and
    leaves the program as it is. *)
Theorem for_each_page_again (prog prog' : Program) (page0 lo hi : Z)
    (fuel : nat) :
  _page0 prog = (Ok page0, prog') →
  prog_lookup prog "min_low_pfn" = Ok lo →
  prog_lookup prog "max_pfn" = Ok hi →
  (Z.to_nat (hi - lo) < fuel)%nat →
  ∃ pages : list Z,
    for_each_page_list fuel prog = Some (Ok pages, prog')
    ∧ for_each_page_list fuel prog' = Some (Ok pages, prog').
Proof.
  intros Hpage0 Hlo Hhi Hfuel. eexists. split.
  - by apply for_each_page_list_pages.
  - rewrite (for_each_page_list_pages prog' prog' page0 lo hi); try done.
    + destruct (_page0_preserves _ _ _ Hpage0) as (_ & Hsize & _).
      unfold page_add. by rewrite Hsize.
    + by eapply _page0_again.
    + by rewrite (prog_lookup_after_page0 _ _ _ _ Hpage0).
    + by rewrite (prog_lookup_after_page0 _ _ _ _ Hpage0).
Qed.

Lemma for_each_page_again_witness :
  _page0 offline_pfn5 = (Ok 0x1000, set_cache offline_pfn5 "page0" 0x1000)
  ∧ ∃ pages : list Z,
      for_each_page_list 11 offline_pfn5
      = Some (Ok pages, set_cache offline_pfn5 "page0" 0x1000)
      ∧ for_each_page_list 11 (set_cache offline_pfn5 "page0" 0x1000)
        = Some (Ok pages, set_cache offline_pfn5 "page0" 0x1000).
Proof.
  split; [reflexivity|].
  apply (for_each_page_again offline_pfn5
           (set_cache offline_pfn5 "page0" 0x1000) 0x1000 0 10 11);
    [reflexivity | reflexivity | reflexivity | vm_compute; lia].
Defined.

(** X12: [for_each_page] yields [max_pfn - min_low_pfn] pointers (none
    when [max_pfn <= min_low_pfn]), and the pointer at position [k] is
    [pfn_to_page] of the PFN [min_low_pfn + k]. *)
Theorem for_each_page_is_pfn_to_page (prog prog' : Program)
    (page0 lo hi : Z) (fuel : nat) :
  _page0 prog = (Ok page0, prog') →
  prog_lookup prog "min_low_pfn" = Ok lo →
  prog_lookup prog "max_pfn" = Ok hi →
  (Z.to_nat (hi - lo) < fuel)%nat →
  ∃ pages : list Z,
    for_each_page_list fuel prog = Some (Ok pages, prog')
    ∧ length pages = Z.to_nat (hi - lo)
    ∧ ∀ (k : nat) (page : Z),
        pages !! k = Some page →
        pfn_to_page prog' (lo + Z.of_nat k) = (Ok page, prog').
Proof.
  intros Hpage0 Hlo Hhi Hfuel. eexists. split; [|split].
  - by apply for_each_page_list_pages.
  - by rewrite length_fmap, length_seqZ.
  - intros k page. rewrite list_lookup_fmap.
    destruct (seqZ lo (hi - lo) !! k) as [pfn|] eqn:Hk; [|done].
    apply lookup_seqZ in Hk as [-> _]. intros [= <-].
    unfold pfn_to_page. rewrite (_page0_again _ _ _ Hpage0).
    destruct (_page0_preserves _ _ _ Hpage0) as (_ & Hsize & _).
    unfold page_add. by rewrite Hsize.
Qed.

Lemma for_each_page_is_pfn_to_page_witness :
  _page0 offline_pfn5 = (Ok 0x1000, set_cache offline_pfn5 "page0" 0x1000)
  ∧ ∃ pages : list Z,
      for_each_page_list 11 offline_pfn5
      = Some (Ok pages, set_cache offline_pfn5 "page0" 0x1000)
      ∧ length pages = Z.to_nat (10 - 0)
      ∧ ∀ (k : nat) (page : Z),
          pages !! k = Some page →
          pfn_to_page (set_cache offline_pfn5 "page0" 0x1000)
            (0 + Z.of_nat k)
          = (Ok page, set_cache offline_pfn5 "page0" 0x1000).
Proof.
  split; [reflexivity|].
  apply (for_each_page_is_pfn_to_page offline_pfn5
           (set_cache offline_pfn5 "page0" 0x1000) 0x1000 0 10 11);
    [reflexivity | reflexivity | reflexivity | vm_compute; lia].
Defined.

Lemma for_each_page_try_KeyError {A : Type} (body : Program → Z → result A)
    (prog : Program) (page0 stop : Z) :
  ∀ (n : nat) (next_pfn : Z) (fuel : nat),
    Z.to_nat (stop - next_pfn) = n → (n < fuel)%nat →
    (∃ (page : Z) (name : string),
       page ∈ page_add prog page0 <$> seqZ next_pfn (stop - next_pfn)
       ∧ body prog page = Raise (KeyError name)) →
    ∃ name : string,
      for_each_page_try body fuel (Suspended page0 next_pfn stop) prog
      = Some (Raise (KeyError name), prog).
Proof.
  induction n as [|n IH]; intros i fuel Hn Hfuel (page & name & Hin & Hraise).
  { rewrite seqZ_nil in Hin by lia. by apply elem_of_nil in Hin. }
  destruct fuel as [|fuel]; [lia|].
  cbn [for_each_page_try for_each_page_next]. unfold for_each_page_resume.
  destruct (Z.ltb_spec i stop); [|lia].
  rewrite seqZ_cons, fmap_cons in Hin by lia.
  replace (Z.succ i) with (i + 1) in Hin by lia.
  replace (Z.pred (stop - i)) with (stop - (i + 1)) in Hin by lia.
  assert (body prog (page_add prog page0 i) = Raise (KeyError name)
          ∨ ∃ name' : string,
              for_each_page_try body fuel (Suspended page0 (i + 1) stop) prog
              = Some (Raise (KeyError name'), prog)) as [Hhere|[name' Hlater]].
  { apply elem_of_cons in Hin as [->|Hin]; [by left|].
    right. apply (IH (i + 1) fuel); [lia | lia | eauto]. }
  - rewrite Hhere. eauto.
  - destruct (body prog (page_add prog page0 i)) as [a|[name''|addr]].
    + rewrite Hlater. eauto.
    + eauto.
    + eauto.
Qed.

(** X13: the caller's loop skips [FaultError] only: if the body raises
    [KeyError] on one of the pages, the loop ends there with a
    [KeyError] instead of a list of pages. *)
Theorem for_each_page_try_propagates_KeyError {A : Type}
    (body : Program → Z → result A) (prog prog' : Program)
    (page0 lo hi : Z) (fuel : nat) :
  _page0 prog = (Ok page0, prog') →
  prog_lookup prog "min_low_pfn" = Ok lo →
  prog_lookup prog "max_pfn" = Ok hi →
  (Z.to_nat (hi - lo) < fuel)%nat →
  (∃ (pfn : Z) (name : string),
     lo <= pfn < hi
     ∧ body prog' (page_add prog page0 pfn) = Raise (KeyError name)) →
  ∃ name : string,
    for_each_page_try body fuel Created prog
    = Some (Raise (KeyError name), prog').
Proof.
  intros Hpage0 Hlo Hhi Hfuel (pfn & name & Hrange & Hraise).
  destruct (_page0_preserves _ _ _ Hpage0) as (_ & Hsize & _).
  rewrite (for_each_page_try_created body prog prog' page0 lo hi) by done.
  apply (for_each_page_try_KeyError body prog' page0 hi (Z.to_nat (hi - lo)));
    [done | done |].
  exists (page_add prog page0 pfn), name. split; [|done].
  apply list_elem_of_fmap. exists pfn. split.
  - unfold page_add. by rewrite Hsize.
  - apply elem_of_seqZ. lia.
Qed.

Lemma for_each_page_try_propagates_KeyError_witness :
  _page0 two_pages_without_PG_head
    = (Ok 0x1000, set_cache two_pages_without_PG_head "page0" 0x1000)
  ∧ PageTail (set_cache two_pages_without_PG_head "page0" 0x1000) 0x1040
    = Raise (KeyError "PG_head")
  ∧ ∃ name : string,
      for_each_page_try PageTail 3 Created two_pages_without_PG_head
      = Some (Raise (KeyError name),
              set_cache two_pages_without_PG_head "page0" 0x1000).
Proof.
  do 2 (split; [reflexivity|]).
  apply (for_each_page_try_propagates_KeyError PageTail
           two_pages_without_PG_head
           (set_cache two_pages_without_PG_head "page0" 0x1000) 0x1000 0 2 3);
    [reflexivity | reflexivity | reflexivity | vm_compute; lia |].
  exists 1, "PG_head". split; [lia | reflexivity].
Defined.

(** ** Decoding the flags *)

(** X14: [decode_page_flags] hands the decoder the flags word reduced to
    its [__NR_PAGEFLAGS] low bits: the bits from [__NR_PAGEFLAGS] up
    (section, node, zone) never reach it.  Without [__NR_PAGEFLAGS] in the
    program it raises [KeyError] before reading the page. *)
Theorem decode_page_flags_masks (decode_enum_type_flags : Z → string)
    (prog : Program) (page : Z) :
  (prog_objects prog !! "__NR_PAGEFLAGS" = None →
     decode_page_flags decode_enum_type_flags prog page
     = Raise (KeyError "__NR_PAGEFLAGS"))
  ∧ (∀ NR_PAGEFLAGS flags : Z,
       prog_lookup prog "__NR_PAGEFLAGS" = Ok NR_PAGEFLAGS →
       0 <= NR_PAGEFLAGS →
       page_flags prog page = Ok flags →
       ∃ masked : Z,
         decode_page_flags decode_enum_type_flags prog page
         = Ok (decode_enum_type_flags masked)
         ∧ 0 <= masked < 2 ^ NR_PAGEFLAGS
         ∧ ∀ i : Z,
             Z.testbit masked i
             = Z.testbit flags i && (i <? NR_PAGEFLAGS)).
Proof.
  split.
  - intros Habsent. unfold decode_page_flags, prog_lookup. by rewrite Habsent.
  - intros NR flags Hnr Hpos Hflags. exists (flags mod 2 ^ NR).
    assert (0 < 2 ^ NR) by (apply Z.pow_pos_nonneg; lia).
    split; [|split].
    + unfold decode_page_flags. rewrite Hnr. cbn. rewrite Hflags. cbn.
      rewrite Z.shiftl_1_l, Z.sub_1_r, <- Z.ones_equiv.
      by rewrite Z.land_ones.
    + by apply Z.mod_pos_bound.
    + intros i. destruct (Z.ltb_spec i NR).
      * rewrite andb_true_r. destruct (Z.le_gt_cases 0 i).
        -- by apply Z.mod_pow2_bits_low.
        -- by rewrite !Z.testbit_neg_r by lia.
      * rewrite andb_false_r. apply Z.mod_pow2_bits_high. lia.
Qed.

Lemma decode_page_flags_masks_witness :
  prog_lookup page_with_zone_bits "__NR_PAGEFLAGS" = Ok 24
  ∧ page_flags page_with_zone_bits 0x1000 = Ok (32 + 2 ^ 62)
  ∧ ∃ masked : Z,
      decode_page_flags (λ _, "") page_with_zone_bits 0x1000 = Ok ""
      ∧ 0 <= masked < 2 ^ 24
      ∧ ∀ i : Z,
          Z.testbit masked i = Z.testbit (32 + 2 ^ 62) i && (i <? 24).
Proof.
  do 2 (split; [reflexivity|]).
  exact (proj2 (decode_page_flags_masks (λ _, "") page_with_zone_bits 0x1000)
           24 (32 + 2 ^ 62) eq_refl ltac:(lia) eq_refl).
Defined.

(** ** Command line and environment *)

Lemma bytes_split_pieces (sep : byte) (data : list byte) :
  ∃ (args : list (list byte)) (tail : list byte),
    bytes_split sep data = args ++ [tail]
    ∧ data = terminated sep args ++ tail
    ∧ Forall (λ arg, sep ∉ arg) args
    ∧ sep ∉ tail.
Proof.
  induction data as [|b rest (args & tail & Hsplit & -> & Hargs & Htail)].
  { exists [], []. repeat split; [done | apply not_elem_of_nil]. }
  cbn [bytes_split]. rewrite Hsplit.
  destruct (Byte.eqb b sep) eqn:Heq.
  - apply byte_dec_bl in Heq as ->. exists ([] :: args), tail.
    repeat split; [|done].
    apply Forall_cons. split; [apply not_elem_of_nil | done].
  - apply eqb_false in Heq. destruct args as [|arg args].
    + exists [], (b :: tail). repeat split; [done|].
      intros [?|?]%elem_of_cons; [congruence | done].
    + exists ((b :: arg) :: args), tail.
      apply Forall_cons in Hargs as [Harg Hargs].
      repeat split; [|done].
      apply Forall_cons. split; [|done].
      intros [?|?]%elem_of_cons; [congruence | done].
Qed.

Lemma bytes_split_terminated (sep : byte) (args : list (list byte))
    (tail : list byte) :
  Forall (λ arg, sep ∉ arg) args → sep ∉ tail →
  bytes_split sep (terminated sep args ++ tail) = args ++ [tail].
Proof.
  assert (∀ data : list byte, sep ∉ data → bytes_split sep data = [data])
    as Hplain.
  { induction data as [|b data IH]; [done|]. intros Hnot.
    apply not_elem_of_cons in Hnot as [Hb Hdata]. cbn.
    rewrite IH by done.
    destruct (Byte.eqb b sep) eqn:Heq; [|done].
    by apply byte_dec_bl in Heq. }
  assert (∀ arg rest : list byte, sep ∉ arg →
            bytes_split sep (arg ++ sep :: rest)
            = arg :: bytes_split sep rest) as Hone.
  { induction arg as [|b arg IH]; intros rest Hnot.
    - cbn. by rewrite (byte_dec_lb eq_refl).
    - apply not_elem_of_cons in Hnot as [Hb Harg]. cbn.
      rewrite IH by done.
      destruct (Byte.eqb b sep) eqn:Heq; [|done].
      by apply byte_dec_bl in Heq. }
  intros Hargs Htail. induction Hargs as [|arg args Harg _ IH].
  - by apply Hplain.
  - unfold terminated in *. cbn. rewrite <- !app_assoc. cbn.
    by rewrite Hone, IH.
Qed.

Lemma length_bytes_split (sep : byte) (data : list byte) :
  length (bytes_split sep data)
  = S (length (filter (λ b, Byte.eqb b sep = true) data)).
Proof.
  induction data as [|b data IH]; [done|]. cbn [bytes_split].
  rewrite filter_cons. destruct (Byte.eqb b sep) eqn:Heq.
  - rewrite decide_True by done. cbn. by rewrite IH.
  - rewrite decide_False by done. rewrite <- IH.
    by destruct (bytes_split sep data).
Qed.

(** X15: what [cmdline] and [environ] return for any contents of the
    argument (environment) area: the area is the returned strings, each
    followed by a NUL, and then a rest without NUL that is not returned;
    no returned string contains a NUL, and there are as many strings as
    NUL bytes in the area.  So an empty area gives the empty list, and an
    area that does not end in NUL loses its last, unterminated string. *)
Theorem cmdline_environ_pieces (read_vm : Z → Z → Z → result (list byte))
    (task : task_struct) :
  (∀ data : list byte,
     read_vm (pgd (mm task)) (arg_start (mm task))
       (arg_end (mm task) - arg_start (mm task)) = Ok data →
     ∃ (args : list (list byte)) (rest : list byte),
       cmdline read_vm task = Ok args
       ∧ data = terminated x00 args ++ rest
       ∧ Forall (λ arg, x00 ∉ arg) args ∧ (x00 ∉ rest)
       ∧ length args
         = length (filter (λ b, Byte.eqb b x00 = true) data))
  ∧ (∀ data : list byte,
       read_vm (pgd (mm task)) (env_start (mm task))
         (env_end (mm task) - env_start (mm task)) = Ok data →
       ∃ (vars : list (list byte)) (rest : list byte),
         environ read_vm task = Ok vars
         ∧ data = terminated x00 vars ++ rest
         ∧ Forall (λ var, x00 ∉ var) vars ∧ (x00 ∉ rest)
         ∧ length vars
           = length (filter (λ b, Byte.eqb b x00 = true) data)).
Proof.
  assert (∀ data : list byte,
            ∃ (args : list (list byte)) (rest : list byte),
              removelast (bytes_split x00 data) = args
              ∧ data = terminated x00 args ++ rest
              ∧ Forall (λ arg, x00 ∉ arg) args ∧ (x00 ∉ rest)
              ∧ length args
                = length (filter (λ b, Byte.eqb b x00 = true) data))
    as Hpieces.
  { intros data.
    destruct (bytes_split_pieces x00 data)
      as (args & rest & Hsplit & Hdata & Hargs & Hrest).
    exists args, rest. rewrite Hsplit, removelast_last.
    repeat split; try done.
    pose proof (length_bytes_split x00 data) as Hlen.
    rewrite Hsplit, length_app in Hlen. cbn in Hlen. lia. }
  split; intros data Hread;
    destruct (Hpieces data) as (args & rest & Hresult & Hrest);
    exists args, rest; (split; [|done]).
  - unfold cmdline, access_remote_vm. rewrite Hread. cbn. by rewrite Hresult.
  - unfold environ, access_remote_vm. rewrite Hread. cbn. by rewrite Hresult.
Qed.

(** X16: [cmdline] and [environ] return the list of strings that was laid
    out in the area, each string followed by a NUL, when no string
    contains a NUL; bytes after the last NUL do not change the result. *)
Theorem cmdline_environ_of_terminated
    (read_vm : Z → Z → Z → result (list byte)) (task : task_struct)
    (strings : list (list byte)) (rest : list byte) :
  Forall (λ s, x00 ∉ s) strings → x00 ∉ rest →
  (read_vm (pgd (mm task)) (arg_start (mm task))
     (arg_end (mm task) - arg_start (mm task))
   = Ok (terminated x00 strings ++ rest) →
   cmdline read_vm task = Ok strings)
  ∧ (read_vm (pgd (mm task)) (env_start (mm task))
       (env_end (mm task) - env_start (mm task))
     = Ok (terminated x00 strings ++ rest) →
     environ read_vm task = Ok strings).
Proof.
  intros Hstrings Hrest.
  split; intros Hread; [unfold cmdline | unfold environ];
    unfold access_remote_vm; rewrite Hread; cbn;
    by rewrite bytes_split_terminated, removelast_last.
Qed.

Ltac no_nul :=
  let H := fresh in
  intros H;
  repeat (apply elem_of_cons in H as [H|H]; [discriminate H|]);
  by apply elem_of_nil in H.

Lemma cmdline_environ_pieces_witness :
  vim_read_vm 0x2000 0x7010 6 = Ok [x41; x3d; x31; x00; x42; x3d]
  ∧ ∃ (vars : list (list byte)) (rest : list byte),
      environ vim_read_vm vim_task = Ok vars
      ∧ [x41; x3d; x31; x00; x42; x3d] = terminated x00 vars ++ rest
      ∧ Forall (λ var, x00 ∉ var) vars ∧ (x00 ∉ rest)
      ∧ length vars
        = length (filter (λ b, Byte.eqb b x00 = true)
                    [x41; x3d; x31; x00; x42; x3d]).
Proof.
  split; [reflexivity|].
  exact (proj2 (cmdline_environ_pieces vim_read_vm vim_task)
           [x41; x3d; x31; x00; x42; x3d] eq_refl).
Defined.

Lemma cmdline_environ_of_terminated_witness :
  Forall (λ s, x00 ∉ s) [[x76; x69; x6d]; [x6d; x6d]]
  ∧ cmdline vim_read_vm vim_task = Ok [[x76; x69; x6d]; [x6d; x6d]]
  ∧ environ vim_read_vm vim_task = Ok [[x41; x3d; x31]].
Proof.
  assert (Forall (λ s, x00 ∉ s) [[x76; x69; x6d]; [x6d; x6d]]) as Hargs.
  { repeat (apply Forall_cons; split; [no_nul|]). apply Forall_nil_2. }
  split; [exact Hargs|]. split.
  - apply (cmdline_environ_of_terminated vim_read_vm vim_task
             [[x76; x69; x6d]; [x6d; x6d]] []);
      [exact Hargs | no_nul | reflexivity].
  - apply (cmdline_environ_of_terminated vim_read_vm vim_task
             [[x41; x3d; x31]] [x42; x3d]);
      [| no_nul | reflexivity].
    apply Forall_cons; split; [no_nul | apply Forall_nil_2].
Defined.

(** X17: [phys_to_virt] undoes [virt_to_phys] on every 64-bit address;
    with the round trip in the other direction, the two are inverse
    bijections of the 64-bit addresses whatever the offset is. *)
Theorem phys_to_virt_of_virt_to_phys (prog : Program) (offset addr : Z) :
  prog_direct_mapping_offset prog = Ok offset →
  is_pointer addr →
  virt_to_phys prog addr ≫= phys_to_virt prog = Ok addr
  ∧ ∀ other : Z,
      is_pointer other →
      virt_to_phys prog addr = virt_to_phys prog other → addr = other.
Proof.
  intros Hoff Hp.
  assert (∀ a : Z, is_pointer a →
            virt_to_phys prog a ≫= phys_to_virt prog = Ok a) as Hback.
  { intros a Ha. unfold virt_to_phys. rewrite Hoff. cbn.
    unfold phys_to_virt. rewrite Hoff. cbn.
    unfold to_u64. rewrite Zplus_mod_idemp_l.
    replace (a - offset + offset) with a by lia. by rewrite Z.mod_small. }
  split; [by apply Hback|].
  intros other Hother Heq. pose proof (Hback addr Hp) as Haddr.
  rewrite Heq, (Hback other Hother) in Haddr. by injection Haddr.
Qed.

Lemma phys_to_virt_of_virt_to_phys_witness :
  prog_direct_mapping_offset two_page_compound = Ok 0xffff888000000000
  ∧ is_pointer 0xffff888000100000
  ∧ virt_to_phys two_page_compound 0xffff888000100000 = Ok 0x100000
  ∧ virt_to_phys two_page_compound 0xffff888000100000
    ≫= phys_to_virt two_page_compound = Ok 0xffff888000100000.
Proof.
  assert (is_pointer 0xffff888000100000) as Hp by (unfold is_pointer; lia).
  split; [reflexivity|]. split; [exact Hp|]. split; [reflexivity|].
  exact (proj1 (phys_to_virt_of_virt_to_phys two_page_compound
                  0xffff888000000000 0xffff888000100000 eq_refl Hp)).
Defined.
